(** * A shell emulator over a read-only virtual file system

    Shallow embedding of [shell_emulator.py] (class [ShellEmulator]) and of
    the parts of the Python library it calls: [str.startswith],
    [str.endswith], [str.split], [str.strip], [str.join], [str(int)],
    [posixpath.join] and [posixpath.normpath], and the insertion-ordered
    [dict].

    Conventions.
    - A Python [str] is a [string]; a character is a code point below 256.
    - A Python [int] is a [Z].
    - A Python [dict] is an association list in insertion order whose keys
      are pairwise distinct ([dict_wf]); [dict_setitem] keeps that.
    - Exceptions are values of [exn]; a method of the class is a function
      of the monad [M], which threads the object [self] and may raise.
    - The XML log file is the list of its [<entry>] elements, in order,
      with the texts as [ET.parse] reads them; the file parses when no
      text holds a character that XML forbids ([log_parses]). *)

From Stdlib Require Import String Ascii List ZArith Lia Bool DecimalString.
Import ListNotations.
Open Scope string_scope.

(** ** Python strings *)

Module Py.

(** [s.startswith(p)] *)
Fixpoint startswith (s p : string) : bool :=
  match p, s with
  | EmptyString, _ => true
  | String _ _, EmptyString => false
  | String b p', String a s' => Ascii.eqb a b && startswith s' p'
  end.

(** [s.endswith(p)]: [p] is [s] or a suffix of the tail of [s]. *)
Fixpoint endswith (s p : string) : bool :=
  String.eqb s p ||
  match s with
  | EmptyString => false
  | String _ s' => endswith s' p
  end.

(** [s.split(sep)] for a one-character separator. *)
Fixpoint split (sep : ascii) (s : string) : list string :=
  match s with
  | EmptyString => [EmptyString]
  | String c s' =>
      if Ascii.eqb c sep then EmptyString :: split sep s'
      else match split sep s' with
           | [] => [String c EmptyString]
           | w :: ws => String c w :: ws
           end
  end.

(** [sep.join(l)] *)
Definition join (sep : string) (l : list string) : string :=
  String.concat sep l.

(** [s * n] *)
Fixpoint mul (s : string) (n : nat) : string :=
  match n with
  | O => EmptyString
  | S n' => s ++ mul s n'
  end.

(** [c.isspace()] on the code points below 256:
    TAB..CR, FS..US, SPACE, NEL and NBSP. *)
Definition isspace (c : ascii) : bool :=
  let n := nat_of_ascii c in
  ((9 <=? n)%nat && (n <=? 13)%nat) || ((28 <=? n)%nat && (n <=? 32)%nat)
  || (n =? 133)%nat || (n =? 160)%nat.

Fixpoint lstrip (s : string) : string :=
  match s with
  | EmptyString => EmptyString
  | String c s' => if isspace c then lstrip s' else s
  end.

Fixpoint rstrip (s : string) : string :=
  match s with
  | EmptyString => EmptyString
  | String c s' =>
      match rstrip s' with
      | EmptyString => if isspace c then EmptyString else String c EmptyString
      | r => String c r
      end
  end.

(** [s.strip()] *)
Definition strip (s : string) : string := rstrip (lstrip s).

(** [s.split()] reading [s] left to right, [word] being the token read so
    far: runs of white space separate tokens and no token is empty. *)
Fixpoint split_ws_from (word s : string) : list string :=
  match s with
  | EmptyString => if String.eqb word "" then [] else [word]
  | String c s' =>
      if isspace c
      then (if String.eqb word "" then split_ws_from "" s'
            else word :: split_ws_from "" s')
      else split_ws_from (word ++ String c EmptyString) s'
  end.

(** [s.split()] *)
Definition split_ws (s : string) : list string := split_ws_from "" s.

(** [str(n)] *)
Definition str (n : Z) : string := NilZero.string_of_int (Z.to_int n).

(** [sum(l)] *)
Definition sum (l : list Z) : Z := fold_left Z.add l 0%Z.

(** Truth value of a list: [bool(l)]. *)
Definition truthy {A} (l : list A) : bool :=
  match l with [] => false | _ :: _ => true end.

Definition tab : string := String (ascii_of_nat 9) EmptyString.
Definition nl : string := String (ascii_of_nat 10) EmptyString.

End Py.

(** ** posixpath *)

Module posixpath.

(** [posixpath.join(a, b)] *)
Definition join (a b : string) : string :=
  if Py.startswith b "/" then b
  else if String.eqb a "" || Py.endswith a "/" then a ++ b
  else a ++ "/" ++ b.

(** One turn of the loop of [normpath] over the components. *)
Definition normpath_step (initial_slashes : nat)
    (new_comps : list string) (comp : string) : list string :=
  if String.eqb comp "" || String.eqb comp "." then new_comps
  else if negb (String.eqb comp "..")
          || ((initial_slashes =? 0)%nat && negb (Py.truthy new_comps))
          || (Py.truthy new_comps && String.eqb (last new_comps "") "..")
       then (new_comps ++ [comp])%list
       else if Py.truthy new_comps then removelast new_comps
            else new_comps.

(** [posixpath.normpath(path)] *)
Definition normpath (path : string) : string :=
  if String.eqb path "" then "."
  else
    let initial_slashes :=
      if Py.startswith path "/"
      then (if Py.startswith path "//" && negb (Py.startswith path "///")
            then 2 else 1)
      else 0 in
    let comps := Py.split "/" path in
    let new_comps := fold_left (normpath_step initial_slashes) comps [] in
    let path := Py.join "/" new_comps in
    let path := if (initial_slashes =? 0)%nat then path
                else Py.mul "/" initial_slashes ++ path in
    if String.eqb path "" then "." else path.

End posixpath.

(** ** Exceptions and results *)

Inductive exn : Type :=
| KeyError (key : string)
| IndexError
| SystemExit (code : Z)
| ParseError.

Inductive result (A : Type) : Type :=
| Return (a : A)
| Raise (e : exn).
Arguments Return {A} a.
Arguments Raise {A} e.

(** ** The insertion-ordered dict *)

Section Dict.
Context {V : Type}.

Definition dict : Type := list (string * V).

  (** the keys, in iteration order *)
Definition dict_keys (d : dict) : list string := map fst d.

Fixpoint dict_lookup (d : dict) (k : string) : option V :=
    match d with
    | [] => None
    | (k', v) :: d' => if String.eqb k' k then Some v else dict_lookup d' k
    end.

  (** [k in d] *)
Definition dict_contains (d : dict) (k : string) : bool :=
    match dict_lookup d k with Some _ => true | None => false end.

  (** [d[k]] *)
Definition dict_getitem (d : dict) (k : string) : result V :=
    match dict_lookup d k with
    | Some v => Return v
    | None => Raise (KeyError k)
    end.

  (** [d[k] = v]: a present key keeps its place, a new key goes last. *)
Fixpoint dict_setitem (d : dict) (k : string) (v : V) : dict :=
    match d with
    | [] => [(k, v)]
    | (k', v') :: d' =>
        if String.eqb k' k then (k', v) :: d'
        else (k', v') :: dict_setitem d' k v
    end.

Definition dict_wf (d : dict) : Prop := NoDup (dict_keys d).
End Dict.
Arguments dict V : clear implicits.

(** [l[n]] *)
Definition list_getitem {A} (l : list A) (n : nat) : result A :=
  match nth_error l n with
  | Some x => Return x
  | None => Raise IndexError
  end.

(** ** The data of the emulator *)

(** the value of the ['type'] field of an entry: ['dir'] or ['file'] *)
Inductive kind : Type := dir | file.

Definition kind_eqb (a b : kind) : bool :=
  match a, b with
  | dir, dir | file, file => true
  | _, _ => false
  end.

(** an entry of [self.fs]: [{'type': ..., 'size': ...}] *)
Record entry : Type := { type : kind; size : Z }.

(** a member of the archive, as [load_fs] reads it *)
Record member : Type := { name : string; isdir : bool; msize : Z }.

(** an [<entry>] element of the log *)
Record log_entry : Type := { action : string; details : string }.

(** ** The XML of the log file *)

(** a character that XML 1.0 allows in a document: TAB, LF, CR and the
    code points from 32 on; [ElementTree] writes any other character as
    it is, and the parser refuses it *)
Definition xml_char (c : ascii) : bool :=
  let n := nat_of_ascii c in
  (32 <=? n)%nat || (n =? 9)%nat || (n =? 10)%nat || (n =? 13)%nat.

(** every character of [s] is allowed *)
Fixpoint xml_legal (s : string) : bool :=
  match s with
  | EmptyString => true
  | String c s' => xml_char c && xml_legal s'
  end.

(** the text the parser gives for [s] written as the text of an element:
    CR LF and a lone CR are read as LF, the other characters as they are *)
Fixpoint xml_text (s : string) : string :=
  match s with
  | EmptyString => EmptyString
  | String c s' =>
      if (nat_of_ascii c =? 13)%nat
      then match s' with
           | String c' _ =>
               if (nat_of_ascii c' =? 10)%nat then xml_text s'
               else String (ascii_of_nat 10) (xml_text s')
           | EmptyString => String (ascii_of_nat 10) EmptyString
           end
      else String c (xml_text s')
  end.

(** the file with these entries is well-formed XML *)
Definition log_parses (file : list log_entry) : bool :=
  forallb (fun e => xml_legal (action e) && xml_legal (details e)) file.

(** [ET.parse(self.log_path)] followed by [getroot()]: the entries of
    the file, or [ParseError] when the file is not well-formed *)
Definition ET_parse (file : list log_entry) : result (list log_entry) :=
  if log_parses file then Return file else Raise ParseError.

(** the fields of a [ShellEmulator]; [log] is the content of the file at
    [log_path]: its [<entry>] elements, with the texts as [ET.parse]
    reads them *)
Record ShellEmulator : Type := {
  hostname : string;
  current_dir : string;
  fs : dict entry;
  log : list log_entry
}.

(** ** The monad of the methods *)

Definition M (A : Type) : Type := ShellEmulator -> result A * ShellEmulator.

Definition ret {A} (a : A) : M A := fun self => (Return a, self).

Definition bind {A B} (m : M A) (k : A -> M B) : M B :=
  fun self =>
    match m self with
    | (Return a, self') => k a self'
    | (Raise e, self') => (Raise e, self')
    end.

Definition raise {A} (e : exn) : M A := fun self => (Raise e, self).

Definition get_self : M ShellEmulator := fun self => (Return self, self).

Definition lift {A} (r : result A) : M A := fun self => (r, self).

Notation "x <- c ;; k" := (bind c (fun x => k))
  (at level 61, c at next level, right associativity).
Notation "c ;;; k" := (bind c (fun _ => k))
  (at level 61, right associativity).

Fixpoint mapM {A B} (f : A -> M B) (l : list A) : M (list B) :=
  match l with
  | [] => ret []
  | x :: l' => y <- f x ;; ys <- mapM f l' ;; ret (y :: ys)
  end.

(** ** The class ShellEmulator *)

(** the loop of [load_fs] over [tar.getmembers()] *)
Definition load_fs (members : list member) : dict entry :=
  fold_left
    (fun d m =>
       dict_setitem d (name m)
         {| type := if isdir m then dir else file; size := msize m |})
    members [].

(** [__init__]: the current directory is ['/'] and the log is empty *)
Definition init (host : string) (members : list member) : ShellEmulator :=
  {| hostname := host; current_dir := "/";
     fs := load_fs members; log := [] |}.

(** [self] after the [<entry>] with the texts [act] and [det] has been
    written at the end of the log; the log holds the texts as they are
    read back ([xml_text]), which is [act] and [det] themselves when they
    hold no CR *)
Definition add_log (self : ShellEmulator) (act det : string) : ShellEmulator :=
  {| hostname := hostname self; current_dir := current_dir self;
     fs := fs self;
     log := (log self ++ [{| action := xml_text act;
                             details := xml_text det |}])%list |}.

(** [self] after [self.current_dir = path] *)
Definition with_current_dir (self : ShellEmulator) (path : string)
  : ShellEmulator :=
  {| hostname := hostname self; current_dir := path;
     fs := fs self; log := log self |}.

(** [log_action]: the file is parsed again at every call, the new
    element goes last and the tree is written back *)
Definition log_action (act det : string) : M unit :=
  fun self =>
    match ET_parse (log self) with
    | Raise e => (Raise e, self)
    | Return root =>
        (Return tt,
         {| hostname := hostname self; current_dir := current_dir self;
            fs := fs self;
            log := (root ++ [{| action := xml_text act;
                                details := xml_text det |}])%list |})
    end.

(** [self.current_dir = path] *)
Definition set_current_dir (path : string) : M unit :=
  fun self => (Return tt, with_current_dir self path).

Definition resolve_path (self : ShellEmulator) (path : string) : string :=
  let path :=
    if negb (Py.startswith path "/")
    then posixpath.join (current_dir self) path
    else path in
  posixpath.normpath path.

(** [path in self.fs and self.fs[path]['type'] == 'dir'] *)
Definition in_fs_and_dir (path : string) : M bool :=
  self <- get_self ;;
  if dict_contains (fs self) path
  then e <- lift (dict_getitem (fs self) path) ;; ret (kind_eqb (type e) dir)
  else ret false.

Definition command_ls (args : list string) : M string :=
  self <- get_self ;;
  arg <- (if Py.truthy args then lift (list_getitem args 0) else ret ".") ;;
  let path := resolve_path self arg in
  ok <- in_fs_and_dir path ;;
  if ok then
    let contents :=
      filter (fun name => Py.startswith name path && negb (String.eqb name path))
             (dict_keys (fs self)) in
    log_action "ls" path ;;;
    ret (Py.join Py.nl contents)
  else
    ret ("ls: cannot access '" ++ path ++ "': No such file or directory").

Definition command_cd (args : list string) : M string :=
  self <- get_self ;;
  path <- (if Py.truthy args
           then arg <- lift (list_getitem args 0) ;; ret (resolve_path self arg)
           else ret "/") ;;
  ok <- in_fs_and_dir path ;;
  if ok then
    set_current_dir path ;;;
    log_action "cd" path ;;;
    ret ""
  else
    ret ("cd: " ++ path ++ ": No such file or directory").

Definition command_exit (args : list string) : M string :=
  log_action "exit" "" ;;;
  raise (SystemExit 0).

Definition command_uname (args : list string) : M string :=
  log_action "uname" "" ;;;
  ret "UNIX Shell Emulator".

Definition command_chmod (args : list string) : M string :=
  self <- get_self ;;
  if negb (length args =? 2)%nat then ret "chmod: missing operand"
  else
    arg1 <- lift (list_getitem args 1) ;;
    let path := resolve_path self arg1 in
    if dict_contains (fs self) path then
      arg0 <- lift (list_getitem args 0) ;;
      log_action "chmod" (arg0 ++ " " ++ path) ;;;
      ret ""
    else
      ret ("chmod: cannot access '" ++ path ++ "': No such file or directory").

Definition command_du (args : list string) : M string :=
  self <- get_self ;;
  path <- (if Py.truthy args
           then arg <- lift (list_getitem args 0) ;; ret (resolve_path self arg)
           else ret (current_dir self)) ;;
  if dict_contains (fs self) path then
    sizes <- mapM (fun name =>
                     e <- lift (dict_getitem (fs self) name) ;; ret (size e))
                  (filter (fun name => Py.startswith name path)
                          (dict_keys (fs self))) ;;
    let size := Py.sum sizes in
    log_action "du" path ;;;
    ret (Py.str size ++ Py.tab ++ path)
  else
    ret ("du: cannot access '" ++ path ++ "': No such file or directory").

(** the dispatch table of [run_command] *)
Definition commands : dict (list string -> M string) :=
  [ ("ls", command_ls); ("cd", command_cd); ("exit", command_exit);
    ("uname", command_uname); ("chmod", command_chmod); ("du", command_du) ].

Definition run_command (command_line : string) : M string :=
  let parts := Py.split_ws (Py.strip command_line) in
  if negb (Py.truthy parts) then ret ""
  else
    command <- lift (list_getitem parts 0) ;;
    let args := skipn 1 parts in
    if dict_contains commands command then
      handler <- lift (dict_getitem commands command) ;;
      handler args
    else
      ret (command ++ ": command not found").

(** ** Sessions *)

(** [run_commands lines self]: the front end feeds the lines one after the
    other; [SystemExit] ends the program, any other exception is reported
    by the window, which goes on with the next line. *)
Fixpoint run_commands (lines : list string) (self : ShellEmulator)
  : ShellEmulator :=
  match lines with
  | [] => self
  | l :: ls =>
      match run_command l self with
      | (Raise (SystemExit _), self') => self'
      | (_, self') => run_commands ls self'
      end
  end.

(** the states a session of the emulator goes through *)
Inductive reachable (host : string) (members : list member)
  : ShellEmulator -> Prop :=
| reach_init : reachable host members (init host members)
| reach_step : forall self line,
    reachable host members self ->
    reachable host members (snd (run_command line self)).

(** ** Path shapes *)

(** [has_char c s]: the character [c] occurs in [s] *)
Fixpoint has_char (c : ascii) (s : string) : bool :=
  match s with
  | EmptyString => false
  | String a s' => Ascii.eqb a c || has_char c s'
  end.

(** a component that [normpath] keeps in an absolute path: not empty,
    neither [.] nor [..], and without separator *)
Definition clean (comp : string) : bool :=
  negb (String.eqb comp "") && negb (String.eqb comp ".")
  && negb (String.eqb comp "..") && negb (has_char "/" comp).

(** an absolute path: [n] leading separators, then the components *)
Definition abs_form (n : nat) (comps : list string) : string :=
  Py.mul "/" n ++ Py.join "/" comps.

(** [path] is absolute *)
Definition absolute (path : string) : bool := Py.startswith path "/".

(** ** The operations of the virtual file system, as specified *)

(** the tokens of a command line: [command_line.strip().split()] *)
Definition tokens (command_line : string) : list string :=
  Py.split_ws (Py.strip command_line).

(** [exists(path)]: the table has an entry at [path] *)
Definition exists_entry (d : dict entry) (path : string) : bool :=
  match dict_lookup d path with Some _ => true | None => false end.

(** [kind(path)] is Directory *)
Definition is_directory (d : dict entry) (path : string) : bool :=
  match dict_lookup d path with
  | Some e => kind_eqb (type e) dir
  | None => false
  end.

(** [listChildren(directoryPath)]: the paths of the entries that
    [directoryPath] prefixes and that differ from it, in table order *)
Definition listChildren (d : dict entry) (directoryPath : string)
  : list string :=
  map fst
    (filter (fun kv => Py.startswith (fst kv) directoryPath
                       && negb (String.eqb (fst kv) directoryPath)) d).


(** the size that [d] records for the key [k] *)
Definition size_at (d : dict entry) (k : string) : Z :=
  match dict_lookup d k with Some e => size e | None => 0%Z end.

(** the path a command works on: its first argument resolved, or the
    default of the command when it has no argument *)
Definition ls_target (self : ShellEmulator) (args : list string) : string :=
  resolve_path self (hd "." args).

Definition cd_target (self : ShellEmulator) (args : list string) : string :=
  match args with [] => "/" | a :: _ => resolve_path self a end.

Definition du_target (self : ShellEmulator) (args : list string) : string :=
  match args with [] => current_dir self | a :: _ => resolve_path self a end.

(** the success branch of each recognized command *)
Definition succeeds (self : ShellEmulator) (verb : string)
    (args : list string) : bool :=
  if String.eqb verb "ls" then is_directory (fs self) (ls_target self args)
  else if String.eqb verb "cd" then is_directory (fs self) (cd_target self args)
  else if String.eqb verb "exit" then true
  else if String.eqb verb "uname" then true
  else if String.eqb verb "chmod" then
    match args with
    | [_; p] => exists_entry (fs self) (resolve_path self p)
    | _ => false
    end
  else if String.eqb verb "du" then exists_entry (fs self) (du_target self args)
  else false.

(** the details string of the record a successful command logs *)
Definition log_details (self : ShellEmulator) (verb : string)
    (args : list string) : string :=
  if String.eqb verb "ls" then ls_target self args
  else if String.eqb verb "cd" then cd_target self args
  else if String.eqb verb "chmod" then
    match args with
    | [mode; p] => mode ++ " " ++ resolve_path self p
    | _ => ""
    end
  else if String.eqb verb "du" then du_target self args
  else "".

(** the command line asks for [exit] *)
Definition is_exit (command_line : string) : bool :=
  match tokens command_line with
  | verb :: _ => String.eqb verb "exit"
  | [] => false
  end.

(** ** A sample table *)

Definition sample_members : list member :=
  [ {| name := "/home"; isdir := true; msize := 0 |};
    {| name := "/home/file.txt"; isdir := false; msize := 42 |};
    {| name := "/home2/x"; isdir := false; msize := 7 |} ].

Definition sample : ShellEmulator := init "host" sample_members.

(** the sample table with an entry for the root *)
Definition rooted : ShellEmulator :=
  init "host" ({| name := "/"; isdir := true; msize := 0 |} :: sample_members).

(** a mode that is a token and holds the character U+0001 *)
Definition illegal_mode : string := String (ascii_of_nat 1) EmptyString.

(** the sample session after [chmod <U+0001> /home] *)
Definition corrupted : ShellEmulator :=
  snd (run_command ("chmod " ++ illegal_mode ++ " /home") sample).

(** the table of the scenario: [/home] and [/home/file.txt] of size 42 *)
Definition scenario : ShellEmulator :=
  init "host"
    [ {| name := "/home"; isdir := true; msize := 0 |};
      {| name := "/home/file.txt"; isdir := false; msize := 42 |} ].

(** ** Archive members and tokens *)

(** the entry [load_fs] stores for a member of the archive *)
Definition entry_of (m : member) : entry :=
  {| type := if isdir m then dir else file; size := msize m |}.

(** [s] contains a white-space character *)
Fixpoint has_space (s : string) : bool :=
  match s with
  | EmptyString => false
  | String c s' => Py.isspace c || has_space s'
  end.

(** [s] is made of white space only *)
Fixpoint all_space (s : string) : bool :=
  match s with
  | EmptyString => true
  | String c s' => Py.isspace c && all_space s'
  end.

(** a token: not empty and without white space *)
Definition token (s : string) : bool :=
  negb (String.eqb s "") && negb (has_space s).

(** [s] is made of separators only *)
Fixpoint only_slashes (s : string) : bool :=
  match s with
  | EmptyString => true
  | String c s' => Ascii.eqb c "/" && only_slashes s'
  end.



(** the names [ls] lists for [path]:
    [[name for name in self.fs if name.startswith(path) and name != path]] *)
Definition ls_contents (d : dict entry) (path : string) : list string :=
  filter (fun name => Py.startswith name path && negb (String.eqb name path))
         (dict_keys d).

(** ** The window *)

(** the [state] option of the text widget *)
Inductive widget_state : Type := NORMAL | DISABLED.

(** the emulator with its widgets: the content and the state of
    [self.text] and the content of [self.entry] *)
Record Gui : Type := {
  emulator : ShellEmulator;
  text : string;
  text_state : widget_state;
  entry_text : string
}.

(** [self.text.config(state=st)] *)
Definition text_config (st : widget_state) (g : Gui) : Gui :=
  {| emulator := emulator g; text := text g; text_state := st;
     entry_text := entry_text g |}.

(** [self.text.insert(tk.END, s)]: a disabled widget ignores it *)
Definition text_insert (s : string) (g : Gui) : Gui :=
  match text_state g with
  | NORMAL =>
      {| emulator := emulator g; text := text g ++ s;
         text_state := text_state g; entry_text := entry_text g |}
  | DISABLED => g
  end.

(** [self.entry.delete(0, tk.END)] *)
Definition entry_delete (g : Gui) : Gui :=
  {| emulator := emulator g; text := text g; text_state := text_state g;
     entry_text := "" |}.

(** the user types [line] in the entry *)
Definition entry_type (line : string) (g : Gui) : Gui :=
  {| emulator := emulator g; text := text g; text_state := text_state g;
     entry_text := line |}.

(** the prompt of [display_prompt] *)
Definition prompt (self : ShellEmulator) : string :=
  hostname self ++ ":" ++ current_dir self ++ "$ ".

Definition display_prompt (g : Gui) : Gui :=
  let prompt := prompt (emulator g) in
  let g := text_config NORMAL g in
  let g := text_insert prompt g in
  text_config DISABLED g.

(** [on_enter]: an exception of [run_command] leaves the handler at once *)
Definition on_enter (g : Gui) : result unit * Gui :=
  let command_line := entry_text g in
  let g := text_config NORMAL g in
  let g := text_insert (command_line ++ Py.nl) g in
  let g := text_config DISABLED g in
  let g := entry_delete g in
  match run_command command_line (emulator g) with
  | (Raise e, self') =>
      (Raise e, {| emulator := self'; text := text g;
                   text_state := text_state g; entry_text := entry_text g |})
  | (Return output, self') =>
      let g := {| emulator := self'; text := text g;
                  text_state := text_state g; entry_text := entry_text g |} in
      let g := if negb (String.eqb output "")
               then text_config DISABLED
                      (text_insert (output ++ Py.nl) (text_config NORMAL g))
               else g in
      (Return tt, display_prompt g)
  end.

(** [start_gui] up to the main loop: fresh widgets, then the prompt *)
Definition start_gui (self : ShellEmulator) : Gui :=
  display_prompt {| emulator := self; text := ""; text_state := DISABLED;
                    entry_text := "" |}.

(** the states of the window: after [start_gui], and after each line the
    user enters that does not end the program; an exception other than
    [SystemExit] leaves the handler and the window goes on *)
Inductive gui_reachable (self0 : ShellEmulator) : Gui -> Prop :=
| gui_start : gui_reachable self0 (start_gui self0)
| gui_enter : forall g line g',
    gui_reachable self0 g ->
    on_enter (entry_type line g) = (Return tt, g') ->
    gui_reachable self0 g'
| gui_enter_error : forall g line e g',
    gui_reachable self0 g ->
    on_enter (entry_type line g) = (Raise e, g') ->
    (forall code, e <> SystemExit code) ->
    gui_reachable self0 g'.

(** * Python strings: lemmas *)

Section StringLemmas.

Lemma startswith_spec (s p : string) :
    Py.startswith s p = true <-> exists t, s = p ++ t.
  Proof.
    revert s; induction p as [|b p IH]; intros s; cbn.
    - split; [intros _; now exists s | intros _; now destruct s].
    - destruct s as [|a s]; cbn.
      + split; [discriminate | intros [t Ht]; discriminate].
      + rewrite andb_true_iff, Ascii.eqb_eq, IH. split.
        * intros [-> [t ->]]. now exists t.
        * intros [t Ht]. injection Ht as -> ->. split; [reflexivity | now exists t].
  Qed.

Lemma split_not_nil (sep : ascii) (s : string) : Py.split sep s <> [].
  Proof.
    destruct s as [|c s]; cbn; [discriminate|].
    destruct (Ascii.eqb c sep); [discriminate|].
    destruct (Py.split sep s); discriminate.
  Qed.

Lemma split_no_sep (sep : ascii) (s : string) :
    Forall (fun w => has_char sep w = false) (Py.split sep s).
  Proof.
    induction s as [|c s IH]; cbn.
    - repeat constructor.
    - destruct (Ascii.eqb c sep) eqn:E.
      + constructor; [reflexivity | exact IH].
      + destruct (Py.split sep s) as [|w ws].
        * repeat constructor. cbn. now rewrite E.
        * inversion IH; subst. constructor; [cbn; now rewrite E | assumption].
  Qed.

Lemma split_word (sep : ascii) (w : string) :
    has_char sep w = false -> Py.split sep w = [w].
  Proof.
    induction w as [|c w IH]; cbn; [reflexivity|].
    intros H. apply orb_false_iff in H as [E H].
    rewrite E, (IH H). reflexivity.
  Qed.

Lemma split_word_sep (sep : ascii) (w t : string) :
    has_char sep w = false ->
    Py.split sep (w ++ String sep t) = w :: Py.split sep t.
  Proof.
    induction w as [|c w IH]; cbn.
    - intros _. now rewrite Ascii.eqb_refl.
    - intros H. apply orb_false_iff in H as [E H].
      rewrite E, (IH H). reflexivity.
  Qed.

Lemma split_join (l : list string) :
    l <> [] -> Forall (fun w => has_char "/" w = false) l ->
    Py.split "/" (Py.join "/" l) = l.
  Proof.
    unfold Py.join.
    induction l as [|x l IH]; [congruence|]. intros _ H.
    inversion H as [|? ? Hx Hl]; subst.
    destruct l as [|y l].
    - cbn. now apply split_word.
    - change (String.concat "/" (x :: y :: l))
        with (x ++ String "/" (String.concat "/" (y :: l))).
      rewrite split_word_sep by assumption.
      rewrite IH; [reflexivity | discriminate | assumption].
  Qed.

End StringLemmas.

(** * posixpath.normpath on absolute paths *)

Section Normpath.
Import posixpath.

Lemma Forall_removelast {A} (P : A -> Prop) (l : list A) :
    Forall P l -> Forall P (removelast l).
  Proof.
    induction 1 as [|x l Hx Hl IH]; cbn; [constructor|].
    destruct l; [constructor | now constructor].
  Qed.

Lemma clean_last_not_dotdot (l : list string) :
    Forall (fun c => clean c = true) l ->
    Py.truthy l && String.eqb (last l "") ".." = false.
  Proof.
    induction 1 as [|x l Hx Hl IH]; [reflexivity|].
    destruct l as [|y l].
    - cbn. unfold clean in Hx.
      destruct (String.eqb x ".."); [|reflexivity].
      rewrite andb_false_r in Hx. discriminate.
    - exact IH.
  Qed.

Lemma normpath_step_clean (n : nat) (acc : list string) (comp : string) :
    n <> 0 -> Forall (fun c => clean c = true) acc ->
    has_char "/" comp = false ->
    Forall (fun c => clean c = true) (normpath_step n acc comp).
  Proof.
    intros Hn Hacc Hc. unfold normpath_step.
    destruct (String.eqb comp "") eqn:E1; [exact Hacc|].
    destruct (String.eqb comp ".") eqn:E2; [exact Hacc|]. cbn [orb].
    destruct (String.eqb comp "..") eqn:E3; cbn [negb orb].
    - rewrite (clean_last_not_dotdot acc Hacc).
      apply Nat.eqb_neq in Hn. rewrite Hn. cbn [andb orb].
      destruct (Py.truthy acc); [now apply Forall_removelast | exact Hacc].
    - apply Forall_app. split; [exact Hacc|].
      repeat constructor. unfold clean. now rewrite E1, E2, E3, Hc.
  Qed.

Lemma normpath_loop_clean (n : nat) (comps acc : list string) :
    n <> 0 -> Forall (fun w => has_char "/" w = false) comps ->
    Forall (fun c => clean c = true) acc ->
    Forall (fun c => clean c = true) (fold_left (normpath_step n) comps acc).
  Proof.
    intros Hn Hcomps. revert acc.
    induction Hcomps as [|c comps Hc _ IH]; intros acc Hacc; cbn.
    - exact Hacc.
    - apply IH. now apply normpath_step_clean.
  Qed.

Lemma normpath_step_keeps (n : nat) (acc : list string) (comp : string) :
    clean comp = true -> normpath_step n acc comp = (acc ++ [comp])%list.
  Proof.
    unfold clean, normpath_step. intros H.
    repeat (apply andb_true_iff in H as [H ?]).
    destruct (String.eqb comp ""); [discriminate|].
    destruct (String.eqb comp "."); [discriminate|].
    destruct (String.eqb comp ".."); [discriminate|]. reflexivity.
  Qed.

Lemma normpath_loop_keeps (n : nat) (comps acc : list string) :
    Forall (fun c => clean c = true) comps ->
    fold_left (normpath_step n) comps acc = (acc ++ comps)%list.
  Proof.
    intros H. revert acc.
    induction H as [|c comps Hc _ IH]; intros acc; cbn.
    - now rewrite app_nil_r.
    - rewrite normpath_step_keeps by assumption.
      rewrite IH, <- app_assoc. reflexivity.
  Qed.

Lemma clean_no_sep (c : string) : clean c = true -> has_char "/" c = false.
  Proof.
    unfold clean. intros H. apply andb_true_iff in H as [_ H].
    now apply negb_true_iff.
  Qed.

Lemma startswith_char (a b : ascii) (s : string) :
    Py.startswith (String a s) (String b "") = Ascii.eqb a b.
  Proof. cbn. destruct s; apply andb_true_r. Qed.

Lemma join_clean_not_absolute (l : list string) :
    Forall (fun c => clean c = true) l ->
    Py.startswith (Py.join "/" l) "/" = false.
  Proof.
    intros H. destruct H as [|x l Hx Hl]; [reflexivity|].
    assert (Hs : Py.startswith x "/" = false).
    { apply clean_no_sep in Hx. destruct x as [|a x]; [reflexivity|].
      rewrite startswith_char. cbn in Hx.
      now apply orb_false_iff in Hx as [-> _]. }
    unfold Py.join. destruct l as [|y l]; [exact Hs|].
    change (String.concat "/" (x :: y :: l))
      with (x ++ String "/" (String.concat "/" (y :: l))).
    destruct x as [|a x]; [cbv in Hx; discriminate Hx|].
    rewrite startswith_char in Hs.
    change (String a x ++ String "/" (String.concat "/" (y :: l)))
      with (String a (x ++ String "/" (String.concat "/" (y :: l)))).
    now rewrite startswith_char.
  Qed.

  (** the loop of [normpath] gives back the components of a path that is
      already normal *)
Lemma normpath_loop_join (n : nat) (l : list string) :
    Forall (fun c => clean c = true) l ->
    fold_left (normpath_step n) (Py.split "/" (Py.join "/" l)) [] = l.
  Proof.
    intros H. destruct l as [|x l].
    - reflexivity.
    - rewrite split_join.
      + now rewrite normpath_loop_keeps.
      + discriminate.
      + eapply Forall_impl; [|exact H]. intros c. apply clean_no_sep.
  Qed.

Lemma startswith_nil (s : string) : Py.startswith s "" = true.
  Proof. now destruct s. Qed.

Lemma startswith_cons (a b : ascii) (s p : string) :
    Py.startswith (String a s) (String b p)
    = Ascii.eqb a b && Py.startswith s p.
  Proof. reflexivity. Qed.

  (** [normpath] on a path that starts with the separator *)
Lemma normpath_absolute_eq (rest : string) :
    normpath (String "/" rest) =
    let n := if Py.startswith rest "/" && negb (Py.startswith rest "//")
             then 2 else 1 in
    abs_form n (fold_left (normpath_step n) (Py.split "/" rest) []).
  Proof.
    unfold normpath, abs_form.
    change (String.eqb (String "/" rest) "") with false. cbv iota.
    rewrite !startswith_cons, startswith_nil, !andb_true_r.
    change (Ascii.eqb "/" "/") with true. cbv iota. rewrite !andb_true_l.
    change (Py.split "/" (String "/" rest))
      with (EmptyString :: Py.split "/" rest).
    destruct (Py.startswith rest "/" && negb (Py.startswith rest "//"));
      reflexivity.
  Qed.

Lemma normpath_absolute_form (path : string) :
    absolute path = true ->
    exists n l, (n = 1 \/ n = 2) /\ Forall (fun c => clean c = true) l /\
                normpath path = abs_form n l.
  Proof.
    unfold absolute. destruct path as [|a rest]; [discriminate|].
    rewrite startswith_char. intros Ha. apply Ascii.eqb_eq in Ha as ->.
    rewrite normpath_absolute_eq. cbv zeta.
    set (n := if Py.startswith rest "/" && negb (Py.startswith rest "//")
              then 2 else 1).
    assert (Hn : n = 1 \/ n = 2).
    { subst n.
      destruct (Py.startswith rest "/" && negb (Py.startswith rest "//"));
        auto. }
    exists n, (fold_left (normpath_step n) (Py.split "/" rest) []).
    split; [exact Hn|]. split; [|reflexivity].
    apply normpath_loop_clean; [lia | apply split_no_sep | constructor].
  Qed.

Lemma normpath_abs_form (n : nat) (l : list string) :
    n = 1 \/ n = 2 -> Forall (fun c => clean c = true) l ->
    normpath (abs_form n l) = abs_form n l.
  Proof.
    intros Hn Hl. pose proof (join_clean_not_absolute l Hl) as Hj.
    destruct Hn as [-> | ->].
    - change (abs_form 1 l) with (String "/" (Py.join "/" l)).
      rewrite normpath_absolute_eq, Hj. cbv zeta. cbn [andb].
      now rewrite normpath_loop_join.
    - change (abs_form 2 l) with (String "/" (String "/" (Py.join "/" l))).
      rewrite normpath_absolute_eq, !startswith_cons, Hj.
      change (Ascii.eqb "/" "/") with true. rewrite startswith_nil.
      cbv zeta. cbn [andb negb].
      change (Py.split "/" (String "/" (Py.join "/" l)))
        with (EmptyString :: Py.split "/" (Py.join "/" l)).
      change (fold_left (normpath_step 2)
                (EmptyString :: Py.split "/" (Py.join "/" l)) [])
        with (fold_left (normpath_step 2) (Py.split "/" (Py.join "/" l)) []).
      now rewrite normpath_loop_join.
  Qed.

Lemma abs_form_absolute (n : nat) (l : list string) :
    n = 1 \/ n = 2 -> absolute (abs_form n l) = true.
  Proof.
    unfold absolute. intros [-> | ->].
    - change (abs_form 1 l) with (String "/" (Py.join "/" l)).
      now rewrite startswith_char.
    - change (abs_form 2 l) with (String "/" (String "/" (Py.join "/" l))).
      now rewrite startswith_char.
  Qed.

Lemma normpath_absolute (path : string) :
    absolute path = true -> absolute (normpath path) = true.
  Proof.
    intros H. destruct (normpath_absolute_form path H) as (n & l & Hn & _ & ->).
    now apply abs_form_absolute.
  Qed.

Lemma normpath_idempotent_absolute (path : string) :
    absolute path = true -> normpath (normpath path) = normpath path.
  Proof.
    intros H. destruct (normpath_absolute_form path H) as (n & l & Hn & Hl & ->).
    now apply normpath_abs_form.
  Qed.

End Normpath.

(** * The dict *)

Section DictLemmas.
Context {V : Type}.
Implicit Types d : dict V.

Lemma dict_lookup_in_keys d k :
    In k (dict_keys d) -> exists v, dict_lookup d k = Some v.
  Proof.
    induction d as [|[k' v'] d IH]; cbn; [contradiction|].
    intros [-> | H].
    - rewrite String.eqb_refl. now exists v'.
    - destruct (String.eqb k' k); [now exists v' | now apply IH].
  Qed.

Lemma dict_lookup_keys d k v :
    dict_lookup d k = Some v -> In k (dict_keys d).
  Proof.
    induction d as [|[k' v'] d IH]; cbn; [discriminate|].
    destruct (String.eqb k' k) eqn:E.
    - apply String.eqb_eq in E. now left.
    - intros H. right. now apply IH.
  Qed.


Lemma dict_keys_setitem d k v :
    dict_keys (dict_setitem d k v) =
    if dict_contains d k then dict_keys d else (dict_keys d ++ [k])%list.
  Proof.
    unfold dict_contains.
    induction d as [|[k' v'] d IH]; cbn; [reflexivity|].
    destruct (String.eqb k' k) eqn:E; cbn; [reflexivity|].
    change (map fst (dict_setitem d k v)) with (dict_keys (dict_setitem d k v)).
    rewrite IH. now destruct (dict_lookup d k).
  Qed.

Lemma dict_setitem_wf d k v : dict_wf d -> dict_wf (dict_setitem d k v).
  Proof.
    unfold dict_wf. intros H. rewrite dict_keys_setitem.
    destruct (dict_contains d k) eqn:E; [exact H|].
    apply NoDup_app; [exact H | constructor; [intros [] | constructor] | ].
    intros x Hx [Hk | []]. subst x.
    destruct (dict_lookup_in_keys d k Hx) as [v' Hv].
    unfold dict_contains in E. now rewrite Hv in E.
  Qed.

Lemma filter_keys (P : string -> bool) d :
    filter P (dict_keys d) = map fst (filter (fun kv => P (fst kv)) d).
  Proof.
    unfold dict_keys. induction d as [|[k v] d IH]; cbn; [reflexivity|].
    destruct (P k); cbn; now rewrite IH.
  Qed.

End DictLemmas.

Lemma load_fs_wf (members : list member) : dict_wf (load_fs members).
Proof.
  unfold load_fs.
  assert (H : forall (d : dict entry), dict_wf d ->
            dict_wf (fold_left
              (fun d m => dict_setitem d (name m)
                 {| type := if isdir m then dir else file; size := msize m |})
              members d)).
  { induction members as [|m ms IH]; intros d Hd; cbn; [exact Hd|].
    apply IH. now apply dict_setitem_wf. }
  apply H. constructor.
Qed.

(** * The command handlers, one equation each *)

Section Handlers.
Variable self : ShellEmulator.

Lemma bind_eq {A B} (m : M A) (k : A -> M B) (s : ShellEmulator)
    (a : A) (s' : ShellEmulator) :
  m s = (Return a, s') -> bind m k s = k a s'.
Proof. unfold bind. now intros ->. Qed.

Lemma log_action_eq (act det : string) (s : ShellEmulator) :
  log_action act det s =
  if log_parses (log s) then (Return tt, add_log s act det)
  else (Raise ParseError, s).
Proof.
  unfold log_action, ET_parse. now destruct (log_parses (log s)).
Qed.

Lemma in_fs_and_dir_eq (path : string) :
  in_fs_and_dir path self = (Return (is_directory (fs self) path), self).
Proof.
  unfold in_fs_and_dir, is_directory, bind, get_self, lift, ret,
    dict_contains, dict_getitem.
  now destruct (dict_lookup (fs self) path).
Qed.

Lemma command_ls_eq (args : list string) :
  command_ls args self =
  let path := ls_target self args in
  if is_directory (fs self) path
  then (if log_parses (log self)
        then (Return (Py.join Py.nl (listChildren (fs self) path)),
              add_log self "ls" path)
        else (Raise ParseError, self))
  else (Return ("ls: cannot access '" ++ path
                ++ "': No such file or directory"), self).
Proof.
  unfold command_ls, ls_target, listChildren.
  rewrite <- (filter_keys
    (fun name => Py.startswith name (resolve_path self (hd "." args))
                 && negb (String.eqb name (resolve_path self (hd "." args))))).
  destruct args as [|a rest];
    cbv [bind get_self lift ret list_getitem nth_error Py.truthy hd];
    rewrite in_fs_and_dir_eq;
    (destruct (is_directory (fs self) _); [|reflexivity]);
    rewrite log_action_eq; now destruct (log_parses (log self)).
Qed.

Lemma command_cd_eq (args : list string) :
  command_cd args self =
  let path := cd_target self args in
  if is_directory (fs self) path
  then (if log_parses (log self)
        then (Return "", add_log (with_current_dir self path) "cd" path)
        else (Raise ParseError, with_current_dir self path))
  else (Return ("cd: " ++ path ++ ": No such file or directory"), self).
Proof.
  unfold command_cd, cd_target.
  destruct args as [|a rest];
    cbv [bind get_self lift ret list_getitem nth_error Py.truthy
         set_current_dir];
    rewrite in_fs_and_dir_eq;
    (destruct (is_directory (fs self) _); [|reflexivity]);
    rewrite log_action_eq; cbn [log with_current_dir];
    now destruct (log_parses (log self)).
Qed.

Lemma command_exit_eq (args : list string) :
  command_exit args self =
  if log_parses (log self)
  then (Raise (SystemExit 0), add_log self "exit" "")
  else (Raise ParseError, self).
Proof.
  unfold command_exit, bind, raise. rewrite log_action_eq.
  now destruct (log_parses (log self)).
Qed.

Lemma command_uname_eq (args : list string) :
  command_uname args self =
  if log_parses (log self)
  then (Return "UNIX Shell Emulator", add_log self "uname" "")
  else (Raise ParseError, self).
Proof.
  unfold command_uname, bind, ret. rewrite log_action_eq.
  now destruct (log_parses (log self)).
Qed.

Lemma command_chmod_eq (args : list string) :
  command_chmod args self =
  match args with
  | [mode; p] =>
      let path := resolve_path self p in
      if exists_entry (fs self) path
      then (if log_parses (log self)
            then (Return "", add_log self "chmod" (mode ++ " " ++ path))
            else (Raise ParseError, self))
      else (Return ("chmod: cannot access '" ++ path
                    ++ "': No such file or directory"), self)
  | _ => (Return "chmod: missing operand", self)
  end.
Proof.
  unfold command_chmod, exists_entry, dict_contains.
  destruct args as [|mode [|p [|x rest]]]; try reflexivity.
  cbv [bind get_self lift ret list_getitem nth_error length Nat.eqb negb].
  destruct (dict_lookup (fs self) (resolve_path self p)); [|reflexivity].
  rewrite log_action_eq. now destruct (log_parses (log self)).
Qed.

Lemma mapM_sizes (d : dict entry) (l : list string) :
  (forall k, In k l -> In k (dict_keys d)) ->
  mapM (fun name => e <- lift (dict_getitem d name) ;; ret (size e)) l self
  = (Return (map (size_at d) l), self).
Proof.
  induction l as [|k l IH]; intros H; [reflexivity|].
  destruct (dict_lookup_in_keys d k (H k (or_introl eq_refl))) as [e He].
  cbn [mapM map].
  rewrite (bind_eq _ _ self (size_at d k) self).
  - rewrite (bind_eq _ _ self (map (size_at d) l) self); [reflexivity|].
    apply IH. intros k' Hk'. apply H. now right.
  - unfold bind, lift, ret, dict_getitem, size_at. now rewrite He.
Qed.

Lemma command_du_sum (args : list string) :
  command_du args self =
  let path := du_target self args in
  if exists_entry (fs self) path
  then (if log_parses (log self)
        then (Return (Py.str (Py.sum (map (size_at (fs self))
                        (filter (fun name => Py.startswith name path)
                                (dict_keys (fs self)))))
                      ++ Py.tab ++ path),
              add_log self "du" path)
        else (Raise ParseError, self))
  else (Return ("du: cannot access '" ++ path
                ++ "': No such file or directory"), self).
Proof.
  unfold command_du. rewrite (bind_eq _ _ self self self) by reflexivity.
  rewrite (bind_eq _ _ self (du_target self args) self)
    by (now destruct args).
  cbv zeta. unfold exists_entry, dict_contains.
  destruct (dict_lookup (fs self) (du_target self args)); [|reflexivity].
  erewrite bind_eq;
    [|apply mapM_sizes; intros k Hk; now apply filter_In in Hk as [Hk _]].
  unfold bind, ret. rewrite log_action_eq.
  now destruct (log_parses (log self)).
Qed.

End Handlers.

(** * Sizes *)




(** * Dispatch *)

Lemma run_command_eq (self : ShellEmulator) (line : string) :
  run_command line self =
  match tokens line with
  | [] => (Return "", self)
  | verb :: args =>
      if String.eqb verb "ls" then command_ls args self
      else if String.eqb verb "cd" then command_cd args self
      else if String.eqb verb "exit" then command_exit args self
      else if String.eqb verb "uname" then command_uname args self
      else if String.eqb verb "chmod" then command_chmod args self
      else if String.eqb verb "du" then command_du args self
      else (Return (verb ++ ": command not found"), self)
  end.
Proof.
  unfold run_command. fold (tokens line).
  destruct (tokens line) as [|verb args]; [reflexivity|].
  cbv [Py.truthy negb bind lift list_getitem nth_error skipn
       dict_contains dict_getitem commands dict_lookup].
  rewrite (String.eqb_sym "ls"), (String.eqb_sym "cd"),
    (String.eqb_sym "exit"), (String.eqb_sym "uname"),
    (String.eqb_sym "chmod"), (String.eqb_sym "du").
  destruct (String.eqb verb "ls"); [reflexivity|].
  destruct (String.eqb verb "cd"); [reflexivity|].
  destruct (String.eqb verb "exit"); [reflexivity|].
  destruct (String.eqb verb "uname"); [reflexivity|].
  destruct (String.eqb verb "chmod"); [reflexivity|].
  destruct (String.eqb verb "du"); reflexivity.
Qed.

Lemma run_command_ls (self : ShellEmulator) (line : string) args :
  tokens line = "ls" :: args -> run_command line self = command_ls args self.
Proof. intros H. now rewrite run_command_eq, H. Qed.

Lemma run_command_cd (self : ShellEmulator) (line : string) args :
  tokens line = "cd" :: args -> run_command line self = command_cd args self.
Proof. intros H. now rewrite run_command_eq, H. Qed.

Lemma run_command_chmod (self : ShellEmulator) (line : string) args :
  tokens line = "chmod" :: args ->
  run_command line self = command_chmod args self.
Proof. intros H. now rewrite run_command_eq, H. Qed.


(** what a command line does to the session: it leaves everything but the
    log as it is, or it is a [cd] whose target is a directory of the table
    and the current directory becomes that target *)
Lemma run_command_state (self : ShellEmulator) (line : string) :
  (exists l, snd (run_command line self)
             = {| hostname := hostname self; current_dir := current_dir self;
                  fs := fs self; log := l |})
  \/ (exists args l,
        tokens line = "cd" :: args /\
        is_directory (fs self) (cd_target self args) = true /\
        snd (run_command line self)
        = {| hostname := hostname self;
             current_dir := cd_target self args;
             fs := fs self; log := l |}).
Proof.
  assert (Hself : self = {| hostname := hostname self;
                            current_dir := current_dir self;
                            fs := fs self; log := log self |})
    by now destruct self.
  rewrite run_command_eq.
  destruct (tokens line) as [|verb args] eqn:Ht.
  { left. now exists (log self). }
  destruct (String.eqb verb "ls") eqn:E1.
  { left. rewrite command_ls_eq. cbv zeta.
    destruct (is_directory (fs self) (ls_target self args));
      [destruct (log_parses (log self))|];
      eexists; cbn [snd]; first [exact Hself | reflexivity]. }
  destruct (String.eqb verb "cd") eqn:E2.
  { apply String.eqb_eq in E2. subst verb. rewrite command_cd_eq. cbv zeta.
    destruct (is_directory (fs self) (cd_target self args)) eqn:Hd.
    - right. exists args.
      destruct (log_parses (log self)); eexists;
        (split; [reflexivity|]); (split; [exact Hd|]); reflexivity.
    - left. eexists. exact Hself. }
  destruct (String.eqb verb "exit") eqn:E3.
  { left. rewrite command_exit_eq.
    destruct (log_parses (log self)); eexists; cbn [snd];
      first [exact Hself | reflexivity]. }
  destruct (String.eqb verb "uname") eqn:E4.
  { left. rewrite command_uname_eq.
    destruct (log_parses (log self)); eexists; cbn [snd];
      first [exact Hself | reflexivity]. }
  destruct (String.eqb verb "chmod") eqn:E5.
  { left. rewrite command_chmod_eq.
    destruct args as [|mode [|p [|x rest]]];
      try (eexists; exact Hself).
    cbv zeta. destruct (exists_entry (fs self) (resolve_path self p));
      [destruct (log_parses (log self))|];
      eexists; cbn [snd]; first [exact Hself | reflexivity]. }
  destruct (String.eqb verb "du") eqn:E6.
  { left. rewrite command_du_sum. cbv zeta.
    destruct (exists_entry (fs self) (du_target self args));
      [destruct (log_parses (log self))|];
      eexists; cbn [snd]; first [exact Hself | reflexivity]. }
  left. eexists. exact Hself.
Qed.

(** * Path resolution *)

Section Resolve.
Variable self : ShellEmulator.
Hypothesis cwd_absolute : absolute (current_dir self) = true.

Lemma absolute_app (a b : string) :
    absolute a = true -> absolute (a ++ b) = true.
  Proof.
    unfold absolute. destruct a as [|c a]; [discriminate|].
    intros H. rewrite startswith_char in H.
    change (String c a ++ b) with (String c (a ++ b)).
    now rewrite startswith_char.
  Qed.

  (** what [resolve_path] hands to [normpath] is absolute *)
Lemma resolve_path_argument_absolute (path : string) :
    absolute (if negb (Py.startswith path "/")
              then posixpath.join (current_dir self) path
              else path) = true.
  Proof.
    destruct (Py.startswith path "/") eqn:E; cbn [negb]; [exact E|].
    unfold posixpath.join. rewrite E.
    destruct (String.eqb (current_dir self) ""
              || Py.endswith (current_dir self) "/");
      now apply absolute_app.
  Qed.

Lemma resolve_path_absolute (path : string) :
    absolute (resolve_path self path) = true.
  Proof.
    unfold resolve_path. apply normpath_absolute.
    apply resolve_path_argument_absolute.
  Qed.

Lemma resolve_path_of_absolute (path : string) :
    absolute path = true -> resolve_path self path = posixpath.normpath path.
  Proof. unfold resolve_path, absolute. now intros ->. Qed.

End Resolve.

(** * Sessions *)

Lemma reachable_inv (host : string) (members : list member)
    (self : ShellEmulator) :
  reachable host members self ->
  fs self = load_fs members /\
  absolute (current_dir self) = true /\
  (current_dir self = "/" \/ is_directory (fs self) (current_dir self) = true).
Proof.
  induction 1 as [|self line _ (Hfs & Habs & Hdir)].
  - cbn. auto.
  - destruct (run_command_state self line)
      as [[l ->] | (args & l & _ & Hd & ->)]; cbn [fs current_dir].
    + auto.
    + split; [exact Hfs|]. split; [|now right].
      destruct args as [|a rest]; [reflexivity|].
      now apply resolve_path_absolute.
Qed.

(** the current directory of a session is always absolute *)
Lemma reachable_current_dir_absolute (host : string) (members : list member)
    (self : ShellEmulator) :
  reachable host members self -> absolute (current_dir self) = true.
Proof. intros H. now destruct (reachable_inv host members self H) as (_ & ? & _). Qed.

(** the table of a session is the one [load_fs] built, with distinct keys *)
Lemma reachable_fs_wf (host : string) (members : list member)
    (self : ShellEmulator) :
  reachable host members self -> dict_wf (fs self).
Proof.
  intros H. destruct (reachable_inv host members self H) as (-> & _).
  apply load_fs_wf.
Qed.

Lemma In_listChildren (d : dict entry) (p k : string) :
  In k (listChildren d p) <->
  In k (dict_keys d) /\ (exists t, k = p ++ t) /\ k <> p.
Proof.
  unfold listChildren.
  rewrite <- (filter_keys
    (fun name => Py.startswith name p && negb (String.eqb name p))).
  rewrite filter_In, andb_true_iff, negb_true_iff, String.eqb_neq,
    startswith_spec.
  reflexivity.
Qed.

(** * The scenario *)

Example scenario_ls_du :
  fst (run_command "ls /home" scenario) = Return "/home/file.txt"
  /\ fst (run_command "du /home" scenario) = Return ("42" ++ Py.tab ++ "/home").
Proof. split; reflexivity. Qed.

Example scenario_session :
  let self := run_commands ["cd /home"; "cd /nope"; "foo bar";
                            "chmod 755 /home/file.txt"] scenario in
  current_dir self = "/home"
  /\ log self = [ {| action := "cd"; details := "/home" |};
                  {| action := "chmod"; details := "755 /home/file.txt" |} ]
  /\ fst (run_command "ls ." self) = Return "/home/file.txt"
  /\ fst (run_command "foo bar" self) = Return "foo: command not found".
Proof. repeat split; reflexivity. Qed.

(** with a current directory that is not absolute, which no session has,
    resolving twice differs from resolving once *)
Remark resolve_path_relative_cwd :
  let self := with_current_dir sample "a" in
  resolve_path self "b" = "a/b"
  /\ resolve_path self (resolve_path self "b") = "a/a/b".
Proof. split; reflexivity. Qed.

(** * The properties of the emulator *)

(** C1, on a table without the key [/]: the sample table has no entry at
    the root, and there [cd] without argument and [ls /] both answer
    "No such file or directory" and leave the session as it is. *)
Lemma root_invalid_without_root_entry :
  run_command "cd" sample
  = (Return "cd: /: No such file or directory", sample)
  /\ run_command "ls /" sample
     = (Return "ls: cannot access '/': No such file or directory", sample).
Proof. split; reflexivity. Qed.

(** C1, as the code has it: while the log file parses, the root [/] is
    a directory exactly when the table has an entry [/] of kind
    directory.  Then [cd] without argument returns the empty string, sets
    the current directory to [/] and logs [("cd", "/")], and [ls /] lists
    the children of [/] and logs [("ls", "/")]; otherwise both return
    their "No such file or directory" message and the session is
    unchanged. *)
Theorem root_valid_iff_root_entry (self : ShellEmulator) :
  log_parses (log self) = true ->
  run_command "cd" self
  = (if is_directory (fs self) "/"
     then (Return "", add_log (with_current_dir self "/") "cd" "/")
     else (Return "cd: /: No such file or directory", self))
  /\ run_command "ls /" self
     = (if is_directory (fs self) "/"
        then (Return (Py.join Py.nl (listChildren (fs self) "/")),
              add_log self "ls" "/")
        else (Return "ls: cannot access '/': No such file or directory",
              self)).
Proof.
  intros Hlog. split.
  - rewrite (run_command_cd self "cd" []) by reflexivity.
    rewrite command_cd_eq. cbv zeta. now rewrite Hlog.
  - rewrite (run_command_ls self "ls /" ["/"]) by reflexivity.
    rewrite command_ls_eq. cbv zeta. now rewrite Hlog.
Qed.

Lemma root_valid_iff_root_entry_witness :
  run_command "cd" rooted
  = (Return "", add_log (with_current_dir rooted "/") "cd" "/")
  /\ run_command "ls /" rooted
     = (Return (Py.join Py.nl ["/home"; "/home/file.txt"; "/home2/x"]),
        add_log rooted "ls" "/").
Proof.
  exact (root_valid_iff_root_entry rooted eq_refl).
Defined.

(** X19: while the log file parses, a command line appends exactly one
    log record, whose action is the verb, when a recognized command
    reaches its success branch, and appends nothing for an empty line, an
    unknown verb or a failed validation. *)
Theorem log_records_when_log_parses (self : ShellEmulator) (line : string) :
  log_parses (log self) = true ->
  log (snd (run_command line self)) =
  match tokens line with
  | [] => log self
  | verb :: args =>
      if succeeds self verb args
      then log (add_log self verb (log_details self verb args))
      else log self
  end.
Proof.
  intros Hlog. rewrite run_command_eq.
  destruct (tokens line) as [|verb args]; [reflexivity|].
  unfold succeeds, log_details.
  destruct (String.eqb verb "ls") eqn:E1.
  { apply String.eqb_eq in E1. subst verb. rewrite command_ls_eq. cbv zeta.
    rewrite Hlog.
    now destruct (is_directory (fs self) (ls_target self args)). }
  destruct (String.eqb verb "cd") eqn:E2.
  { apply String.eqb_eq in E2. subst verb. rewrite command_cd_eq. cbv zeta.
    rewrite Hlog.
    now destruct (is_directory (fs self) (cd_target self args)). }
  destruct (String.eqb verb "exit") eqn:E3.
  { apply String.eqb_eq in E3. subst verb.
    now rewrite command_exit_eq, Hlog. }
  destruct (String.eqb verb "uname") eqn:E4.
  { apply String.eqb_eq in E4. subst verb.
    now rewrite command_uname_eq, Hlog. }
  destruct (String.eqb verb "chmod") eqn:E5.
  { apply String.eqb_eq in E5. subst verb. rewrite command_chmod_eq.
    destruct args as [|mode [|p [|x rest]]]; try reflexivity.
    cbv zeta. rewrite Hlog.
    now destruct (exists_entry (fs self) (resolve_path self p)). }
  destruct (String.eqb verb "du") eqn:E6.
  { apply String.eqb_eq in E6. subst verb. rewrite command_du_sum. cbv zeta.
    rewrite Hlog.
    now destruct (exists_entry (fs self) (du_target self args)). }
  reflexivity.
Qed.

Lemma log_records_when_log_parses_witness :
  log (snd (run_command "uname" sample))
  = [{| action := "uname"; details := "" |}].
Proof.
  exact (log_records_when_log_parses sample "uname" eq_refl).
Defined.

(** C2, where the code fails: after [chmod <U+0001> /home] the log file
    holds a character that XML forbids, so [log_action] raises
    [ParseError] when it reads the file again: [uname], [exit] and a
    [cd] into a directory reach their success branch, append no record
    and return nothing. *)
Theorem log_records_lost_after_illegal_chmod :
  log corrupted = [{| action := "chmod";
                      details := illegal_mode ++ " /home" |}]
  /\ run_command "uname" corrupted = (Raise ParseError, corrupted)
  /\ run_command "exit" corrupted = (Raise ParseError, corrupted)
  /\ run_command "cd /home" corrupted
     = (Raise ParseError, with_current_dir corrupted "/home").
Proof. repeat split; reflexivity. Qed.



(** C3, where the code fails: after [chmod <U+0001> /home] the path
    [/home] is still a key of the table, and [du /home] raises
    [ParseError] in [log_action] instead of returning the size. *)
Theorem du_raises_after_illegal_chmod :
  exists_entry (fs corrupted) "/home" = true
  /\ run_command "du /home" corrupted = (Raise ParseError, corrupted).
Proof. split; reflexivity. Qed.

(** X21: while the log file parses, [ls] on a directory [p] of the table
    returns, one per line and in the order of the table, the paths of the
    entries that start with [p] and differ from [p], and logs
    [("ls", p)]; the match is on the characters only. *)
Theorem ls_listing_when_log_parses (self : ShellEmulator) (line : string)
    (args : list string) :
  log_parses (log self) = true ->
  tokens line = "ls" :: args ->
  is_directory (fs self) (resolve_path self (hd "." args)) = true ->
  let p := resolve_path self (hd "." args) in
  run_command line self
  = (Return (Py.join Py.nl (listChildren (fs self) p)), add_log self "ls" p)
  /\ (forall k, In k (listChildren (fs self) p) <->
                In k (dict_keys (fs self)) /\ (exists t, k = p ++ t) /\ k <> p).
Proof.
  intros Hlog Ht Hd p. split.
  - rewrite (run_command_ls self line args Ht), command_ls_eq.
    unfold ls_target. fold p. cbv zeta. subst p. now rewrite Hd, Hlog.
  - intros k. apply In_listChildren.
Qed.

Lemma ls_listing_when_log_parses_witness :
  run_command "ls /home" sample
  = (Return ("/home/file.txt" ++ Py.nl ++ "/home2/x"),
     add_log sample "ls" "/home").
Proof.
  exact (proj1 (ls_listing_when_log_parses sample "ls /home" ["/home"]
                  eq_refl eq_refl eq_refl)).
Defined.

(** C4, where the code fails: after [chmod <U+0001> /home] the path
    [/home] is still a directory of the table, and [ls /home] raises
    [ParseError] in [log_action] instead of returning the listing. *)
Theorem ls_raises_after_illegal_chmod :
  is_directory (fs corrupted) "/home" = true
  /\ run_command "ls /home" corrupted = (Raise ParseError, corrupted).
Proof. split; reflexivity. Qed.

(** C5: [cd] succeeds only into a directory of the table; when the
    resolved target is not one, it returns
    "cd: <path>: No such file or directory", which is not the empty
    string of a success, and the session, current directory and log
    included, is unchanged. *)
Theorem cd_fails_atomically (self : ShellEmulator) (line : string)
    (args : list string) :
  tokens line = "cd" :: args ->
  let path := match args with [] => "/" | a :: _ => resolve_path self a end in
  is_directory (fs self) path = false ->
  run_command line self
  = (Return ("cd: " ++ path ++ ": No such file or directory"), self)
  /\ fst (run_command line self) <> Return "".
Proof.
  intros Ht path Hd.
  assert (H : run_command line self
              = (Return ("cd: " ++ path ++ ": No such file or directory"),
                 self)).
  { rewrite (run_command_cd self line args Ht), command_cd_eq. cbv zeta.
    fold (cd_target self args) in path. subst path. now rewrite Hd. }
  split; [exact H|]. rewrite H. discriminate.
Qed.

Lemma cd_fails_atomically_witness :
  run_command "cd /nope" sample
  = (Return "cd: /nope: No such file or directory", sample)
  /\ fst (run_command "cd /nope" sample) <> Return "".
Proof.
  exact (cd_fails_atomically sample "cd /nope" ["/nope"] eq_refl eq_refl).
Defined.

(** C6: path resolution is idempotent: with the current directory [d] of
    a session, which is absolute, resolving the resolution of [p] gives
    the resolution of [p]. *)
Theorem resolve_path_idempotent (self : ShellEmulator) (p : string) :
  absolute (current_dir self) = true ->
  resolve_path self (resolve_path self p) = resolve_path self p.
Proof.
  intros Habs.
  rewrite (resolve_path_of_absolute self (resolve_path self p))
    by now apply resolve_path_absolute.
  unfold resolve_path. apply normpath_idempotent_absolute.
  now apply resolve_path_argument_absolute.
Qed.

Lemma resolve_path_idempotent_witness :
  resolve_path sample (resolve_path sample "home/../a//b/.")
  = resolve_path sample "home/../a//b/.".
Proof.
  exact (resolve_path_idempotent sample "home/../a//b/." eq_refl).
Defined.

(** X22: [chmod] with a number of arguments other than two returns
    "chmod: missing operand" and changes nothing; while the log file
    parses, [chmod] with two arguments [mode] and [path] whose resolution
    is in the table returns the empty string and only appends the record
    [("chmod", "<mode> <resolved path>")], and with a resolution that is
    not in the table it returns the "cannot access" message and changes
    nothing. *)
Theorem chmod_when_log_parses (self : ShellEmulator) (line : string)
    (args : list string) :
  tokens line = "chmod" :: args ->
  log_parses (log self) = true ->
  run_command line self =
  if negb (length args =? 2)%nat
  then (Return "chmod: missing operand", self)
  else
    let mode := nth 0 args "" in
    let path := resolve_path self (nth 1 args "") in
    if exists_entry (fs self) path
    then (Return "", add_log self "chmod" (mode ++ " " ++ path))
    else (Return ("chmod: cannot access '" ++ path
                  ++ "': No such file or directory"), self).
Proof.
  intros Ht Hlog.
  rewrite (run_command_chmod self line args Ht), command_chmod_eq.
  destruct args as [|mode [|p [|x rest]]]; try reflexivity.
  cbv zeta. cbn [length Nat.eqb negb nth]. now rewrite Hlog.
Qed.

Lemma chmod_when_log_parses_witness :
  run_command "chmod 755 /home/file.txt" sample
  = (Return "", add_log sample "chmod" "755 /home/file.txt")
  /\ run_command "chmod 755 /home/file.txt extra" sample
     = (Return "chmod: missing operand", sample).
Proof.
  split.
  - exact (chmod_when_log_parses sample "chmod 755 /home/file.txt"
             ["755"; "/home/file.txt"] eq_refl eq_refl).
  - exact (chmod_when_log_parses sample "chmod 755 /home/file.txt extra"
             ["755"; "/home/file.txt"; "extra"] eq_refl eq_refl).
Defined.

(** C7, where the code fails: [chmod <U+0001> /home] succeeds on the
    sample session and writes the character U+0001 to the log; the next
    [chmod], with two arguments and a target that is in the table,
    raises [ParseError] in [log_action] instead of returning the empty
    string, and appends nothing. *)
Theorem chmod_raises_after_illegal_chmod :
  run_command ("chmod " ++ illegal_mode ++ " /home") sample
  = (Return "", corrupted)
  /\ exists_entry (fs corrupted) "/home/file.txt" = true
  /\ run_command "chmod 755 /home/file.txt" corrupted
     = (Raise ParseError, corrupted).
Proof. repeat split; reflexivity. Qed.



(** C9: [ls], [cd] and [du] read their first argument only: a command
    line with further arguments behaves exactly as the line with the
    verb and the first argument, so there is no diagnostic for the
    number of arguments of these verbs. *)
Theorem extra_arguments_ignored (self : ShellEmulator) (line line1 : string)
    (verb a : string) (rest : list string) :
  verb = "ls" \/ verb = "cd" \/ verb = "du" ->
  tokens line = verb :: a :: rest ->
  tokens line1 = [verb; a] ->
  run_command line self = run_command line1 self.
Proof.
  intros Hv Ht Ht1. rewrite !run_command_eq, Ht, Ht1.
  destruct Hv as [-> | [-> | ->]]; cbn [String.eqb Ascii.eqb Bool.eqb].
  - now rewrite !command_ls_eq.
  - now rewrite !command_cd_eq.
  - now rewrite !command_du_sum.
Qed.

Lemma extra_arguments_ignored_witness :
  run_command "ls /home /nope" sample = run_command "ls /home" sample.
Proof.
  exact (extra_arguments_ignored sample "ls /home /nope" "ls /home"
           "ls" "/home" ["/nope"] (or_introl eq_refl) eq_refl eq_refl).
Defined.


(** C10, where the code fails: after [chmod <U+0001> /home] the line
    [uname], whose verb is not [exit], raises [ParseError] instead of
    returning its output, and [exit] raises [ParseError] instead of
    [SystemExit]. *)
Theorem run_command_raises_parse_error :
  is_exit "uname" = false
  /\ fst (run_command "uname" corrupted) = Raise ParseError
  /\ is_exit "exit" = true
  /\ fst (run_command "exit" corrupted) = Raise ParseError.
Proof. repeat split; reflexivity. Qed.

(** * Loading the table *)

Section LoadFs.

Lemma dict_lookup_setitem {V} (d : dict V) (k k' : string) (v : V) :
  dict_lookup (dict_setitem d k v) k'
  = if String.eqb k k' then Some v else dict_lookup d k'.
Proof.
  induction d as [|[k0 v0] d IH]; cbn.
  - reflexivity.
  - destruct (String.eqb k0 k) eqn:E; cbn.
    + apply String.eqb_eq in E. subst k0. now destruct (String.eqb k k').
    + rewrite IH. destruct (String.eqb k0 k') eqn:E'; [|reflexivity].
      apply String.eqb_eq in E'. subst k0. now rewrite String.eqb_sym, E.
Qed.

Lemma dict_setitem_fresh {V} (d : dict V) (k : string) (v : V) :
  ~ In k (dict_keys d) -> dict_setitem d k v = (d ++ [(k, v)])%list.
Proof.
  induction d as [|[k0 v0] d IH]; cbn; [reflexivity|].
  intros H. destruct (String.eqb k0 k) eqn:E.
  - apply String.eqb_eq in E. exfalso. apply H. now left.
  - rewrite IH; [reflexivity|]. intros Hin. apply H. now right.
Qed.

Lemma find_app {A} (f : A -> bool) (l1 l2 : list A) :
  find f (l1 ++ l2)
  = match find f l1 with Some x => Some x | None => find f l2 end.
Proof.
  induction l1 as [|x l1 IH]; cbn; [reflexivity|].
  now destruct (f x).
Qed.

Lemma load_fs_fold (ms : list member) (d : dict entry) :
  fold_left
    (fun d m => dict_setitem d (name m)
       {| type := if isdir m then dir else file; size := msize m |}) ms d
  = fold_left (fun d m => dict_setitem d (name m) (entry_of m)) ms d.
Proof. reflexivity. Qed.

Lemma load_fs_lookup_from (ms : list member) (d : dict entry) (k : string) :
  dict_lookup
    (fold_left (fun d m => dict_setitem d (name m) (entry_of m)) ms d) k
  = match find (fun m => String.eqb (name m) k) (rev ms) with
    | Some m => Some (entry_of m)
    | None => dict_lookup d k
    end.
Proof.
  revert d. induction ms as [|m ms IH]; intros d; cbn [fold_left rev].
  - reflexivity.
  - rewrite IH, find_app, dict_lookup_setitem. cbn [find].
    destruct (find (fun m0 => String.eqb (name m0) k) (rev ms));
      [reflexivity|].
    now destruct (String.eqb (name m) k).
Qed.

Lemma load_fs_keys_from (ms : list member) (d : dict entry) (k : string) :
  In k (dict_keys
          (fold_left (fun d m => dict_setitem d (name m) (entry_of m)) ms d))
  <-> In k (dict_keys d) \/ In k (map name ms).
Proof.
  revert d. induction ms as [|m ms IH]; intros d; cbn [fold_left map].
  - cbn. tauto.
  - rewrite IH, dict_keys_setitem.
    destruct (dict_contains d (name m)) eqn:E.
    + cbn [In]. split; [tauto|]. intros [H | [H | H]]; auto.
      subst k. left. unfold dict_contains in E.
      destruct (dict_lookup d (name m)) as [v|] eqn:El; [|discriminate].
      now apply dict_lookup_keys in El.
    + rewrite in_app_iff. cbn [In]. tauto.
Qed.

Lemma load_fs_distinct_from (ms : list member) (d : dict entry) :
  NoDup (dict_keys d ++ map name ms) ->
  fold_left (fun d m => dict_setitem d (name m) (entry_of m)) ms d
  = (d ++ map (fun m => (name m, entry_of m)) ms)%list.
Proof.
  revert d. induction ms as [|m ms IH]; intros d H; cbn [fold_left map].
  - now rewrite app_nil_r.
  - assert (Hm : ~ In (name m) (dict_keys d)).
    { intros Hin. apply NoDup_remove_2 in H. apply H.
      apply in_or_app. now left. }
    rewrite dict_setitem_fresh by exact Hm.
    rewrite IH.
    + now rewrite <- app_assoc.
    + unfold dict_keys in *. rewrite map_app, <- app_assoc. exact H.
Qed.

(** X1: the table holds, for every name, the type and the size of the
    last member of the archive with that name, and nothing for a name
    that no member has. *)
Theorem load_fs_last_member_wins (ms : list member) (k : string) :
  dict_lookup (load_fs ms) k
  = option_map entry_of (find (fun m => String.eqb (name m) k) (rev ms)).
Proof.
  unfold load_fs. rewrite load_fs_fold, load_fs_lookup_from.
  now destruct (find (fun m => String.eqb (name m) k) (rev ms)).
Qed.

(** X2: the keys of the table are the names of the members, each once. *)
Theorem load_fs_keys (ms : list member) :
  NoDup (dict_keys (load_fs ms))
  /\ forall k, In k (dict_keys (load_fs ms)) <-> In k (map name ms).
Proof.
  split; [apply load_fs_wf|].
  intros k. unfold load_fs. rewrite load_fs_fold, load_fs_keys_from.
  cbn. tauto.
Qed.

(** X3: when the names of the archive are pairwise distinct, the table
    lists the members in the order of the archive, one entry each. *)
Theorem load_fs_archive_order (ms : list member) :
  NoDup (map name ms) ->
  load_fs ms = map (fun m => (name m, entry_of m)) ms.
Proof.
  intros H. unfold load_fs. rewrite load_fs_fold.
  now rewrite load_fs_distinct_from.
Qed.

Lemma load_fs_archive_order_witness :
  NoDup (map name sample_members)
  /\ load_fs sample_members
     = [ ("/home", {| type := dir; size := 0 |});
         ("/home/file.txt", {| type := file; size := 42 |});
         ("/home2/x", {| type := file; size := 7 |}) ].
Proof.
  assert (H : NoDup (map name sample_members)).
  { repeat constructor; cbn; intros H;
      repeat (destruct H as [H | H]; [discriminate H|]); exact H. }
  split; [exact H | exact (load_fs_archive_order sample_members H)].
Defined.

End LoadFs.

(** * Tokens of a command line *)

Section Tokens.

Lemma append_nil_r (s : string) : s ++ "" = s.
Proof. induction s as [|c s IH]; cbn; [reflexivity | now rewrite IH]. Qed.

Lemma append_assoc (a b c : string) : (a ++ b) ++ c = a ++ (b ++ c).
Proof. induction a as [|x a IH]; cbn; [reflexivity | now rewrite IH]. Qed.

Lemma append_empty (a b : string) : a ++ b = "" -> a = "" /\ b = "".
Proof. destruct a; cbn; [auto | discriminate]. Qed.

Lemma has_space_app (a b : string) :
  has_space (a ++ b) = has_space a || has_space b.
Proof.
  induction a as [|c a IH]; cbn; [reflexivity|].
  now rewrite IH, orb_assoc.
Qed.

Lemma split_ws_lstrip (s : string) :
  Py.split_ws_from "" (Py.lstrip s) = Py.split_ws_from "" s.
Proof.
  induction s as [|c s IH]; cbn; [reflexivity|].
  destruct (Py.isspace c) eqn:E; [exact IH|].
  cbn. now rewrite E.
Qed.

Lemma split_ws_rstrip (s word : string) :
  Py.split_ws_from word (Py.rstrip s) = Py.split_ws_from word s.
Proof.
  revert word. induction s as [|c s IH]; intros word; [reflexivity|].
  cbn [Py.rstrip]. destruct (Py.rstrip s) as [|a r] eqn:Er.
  - destruct (Py.isspace c) eqn:E; cbn [Py.split_ws_from]; rewrite E.
    + rewrite <- (IH ""). cbn. reflexivity.
    + now rewrite <- IH.
  - cbn [Py.split_ws_from]. destruct (Py.isspace c).
    + now rewrite <- (IH "").
    + now rewrite <- IH.
Qed.

(** [strip] before [split] changes nothing *)
Lemma tokens_split_ws (line : string) : tokens line = Py.split_ws line.
Proof.
  unfold tokens, Py.split_ws, Py.strip.
  now rewrite split_ws_rstrip, split_ws_lstrip.
Qed.

Lemma split_ws_leading (l s : string) :
  all_space l = true ->
  Py.split_ws_from "" (l ++ s) = Py.split_ws_from "" s.
Proof.
  induction l as [|c l IH]; cbn; [reflexivity|].
  intros H. apply andb_true_iff in H as [-> H]. cbn. now apply IH.
Qed.

Lemma split_ws_all_space (r word : string) :
  all_space r = true ->
  Py.split_ws_from word r = Py.split_ws_from word "".
Proof.
  revert word. induction r as [|c r IH]; intros word; cbn; [reflexivity|].
  intros H. apply andb_true_iff in H as [-> H].
  rewrite (IH "" H). cbn. reflexivity.
Qed.

Lemma split_ws_trailing (s r word : string) :
  all_space r = true ->
  Py.split_ws_from word (s ++ r) = Py.split_ws_from word s.
Proof.
  intros H. revert word. induction s as [|c s IH]; intros word.
  - now apply split_ws_all_space.
  - cbn. now rewrite !IH.
Qed.

Lemma tokens_padding (l line r : string) :
  all_space l = true -> all_space r = true ->
  tokens (l ++ line ++ r) = tokens line.
Proof.
  intros Hl Hr. rewrite !tokens_split_ws. unfold Py.split_ws.
  now rewrite split_ws_leading, split_ws_trailing.
Qed.

Lemma split_ws_word (t rest word : string) :
  has_space t = false ->
  Py.split_ws_from word (t ++ rest) = Py.split_ws_from (word ++ t) rest.
Proof.
  revert word. induction t as [|c t IH]; intros word; cbn.
  - intros _. now rewrite append_nil_r.
  - intros H. apply orb_false_iff in H as [-> H].
    rewrite (IH _ H), append_assoc. reflexivity.
Qed.

Lemma split_ws_tokens (s word : string) :
  has_space word = false ->
  Forall (fun t => token t = true) (Py.split_ws_from word s).
Proof.
  revert word. induction s as [|c s IH]; intros word Hw; cbn.
  - destruct (String.eqb word "") eqn:E; constructor; [|constructor].
    unfold token. now rewrite E, Hw.
  - destruct (Py.isspace c) eqn:Ec.
    + destruct (String.eqb word "") eqn:E.
      * now apply IH.
      * constructor; [unfold token; now rewrite E, Hw | now apply IH].
    + apply IH. rewrite has_space_app. cbn. now rewrite Hw, Ec.
Qed.

Lemma split_ws_join (ts : list string) :
  Forall (fun t => token t = true) ts ->
  Py.split_ws_from "" (Py.join " " ts) = ts.
Proof.
  unfold Py.join.
  induction 1 as [|t ts Ht Hts IH]; [reflexivity|].
  unfold token in Ht. apply andb_true_iff in Ht as [Hne Hsp].
  apply negb_true_iff in Hne, Hsp.
  destruct ts as [|u ts].
  - cbn [String.concat]. rewrite <- (append_nil_r t) at 1.
    rewrite split_ws_word by exact Hsp. cbn. now rewrite Hne.
  - change (String.concat " " (t :: u :: ts))
      with (t ++ String " " (String.concat " " (u :: ts))).
    rewrite split_ws_word by exact Hsp. cbn [append Py.split_ws_from].
    change (Py.isspace " ") with true. cbv iota.
    now rewrite Hne, IH.
Qed.

(** X4: white space around a command line does not count: the line with
    white space before and after it does what the line does. *)
Theorem run_command_ignores_padding (self : ShellEmulator)
    (l line r : string) :
  all_space l = true -> all_space r = true ->
  run_command (l ++ line ++ r) self = run_command line self.
Proof.
  intros Hl Hr. rewrite !run_command_eq.
  now rewrite (tokens_padding l line r Hl Hr).
Qed.

Lemma run_command_ignores_padding_witness :
  run_command ("  " ++ "ls /home" ++ Py.tab ++ " ") sample
  = run_command "ls /home" sample.
Proof.
  exact (run_command_ignores_padding sample "  " "ls /home" (Py.tab ++ " ")
           eq_refl eq_refl).
Defined.

(** X5: the verb and the arguments that [run_command] reads off a line
    are never empty and never contain white space. *)
Theorem tokens_are_tokens (line : string) :
  Forall (fun t => token t = true) (tokens line).
Proof.
  rewrite tokens_split_ws. now apply split_ws_tokens.
Qed.

(** X6: a line made of tokens joined by single spaces is read back as
    these tokens, so [run_command] sees the first as the verb and the
    others as the arguments. *)
Theorem tokens_of_joined_tokens (ts : list string) :
  Forall (fun t => token t = true) ts ->
  tokens (Py.join " " ts) = ts.
Proof.
  intros H. rewrite tokens_split_ws. now apply split_ws_join.
Qed.

Lemma tokens_of_joined_tokens_witness :
  tokens "chmod 755 /home/file.txt" = ["chmod"; "755"; "/home/file.txt"].
Proof.
  apply (tokens_of_joined_tokens ["chmod"; "755"; "/home/file.txt"]).
  repeat constructor.
Defined.

End Tokens.

(** * Resolving names against the current directory *)

Section ResolveNames.

Lemma join_app_last (l : list string) (x : string) :
  l <> [] ->
  Py.join "/" (l ++ [x]) = Py.join "/" l ++ "/" ++ x.
Proof.
  unfold Py.join. induction l as [|a l IH]; [congruence|]. intros _.
  destruct l as [|b l].
  - reflexivity.
  - change (String.concat "/" ((a :: b :: l) ++ [x]))
      with (a ++ "/" ++ String.concat "/" ((b :: l) ++ [x])).
    rewrite IH by discriminate.
    change (String.concat "/" (a :: b :: l))
      with (a ++ "/" ++ String.concat "/" (b :: l)).
    now rewrite !append_assoc.
Qed.

Lemma no_sep_not_absolute (x : string) :
  has_char "/" x = false -> Py.startswith x "/" = false.
Proof.
  destruct x as [|a x]; [reflexivity|]. cbn [has_char].
  intros H. apply orb_false_iff in H as [H _].
  now rewrite startswith_char.
Qed.

Lemma join_head_not_absolute (x : string) (l : list string) :
  x <> "" -> has_char "/" x = false ->
  Py.startswith (Py.join "/" (x :: l)) "/" = false.
Proof.
  intros Hne Hx. pose proof (no_sep_not_absolute x Hx) as Hs.
  unfold Py.join. destruct l as [|y l]; [exact Hs|].
  change (String.concat "/" (x :: y :: l))
    with (x ++ String "/" (String.concat "/" (y :: l))).
  destruct x as [|a x]; [congruence|].
  rewrite startswith_char in Hs.
  change (String a x ++ String "/" (String.concat "/" (y :: l)))
    with (String a (x ++ String "/" (String.concat "/" (y :: l)))).
  now rewrite startswith_char.
Qed.

Lemma clean_not_empty (c : string) : clean c = true -> c <> "".
Proof.
  unfold clean. intros H ->. cbn in H. discriminate H.
Qed.

(** [normpath] on leading separators followed by components *)
Lemma normpath_abs_comps (n : nat) (cs : list string) :
  n = 1 \/ n = 2 -> cs <> [] ->
  Forall (fun w => has_char "/" w = false) cs ->
  Py.startswith (Py.join "/" cs) "/" = false ->
  posixpath.normpath (Py.mul "/" n ++ Py.join "/" cs)
  = abs_form n (fold_left (posixpath.normpath_step n) cs []).
Proof.
  intros Hn Hne Hcs Hj. destruct Hn as [-> | ->].
  - change (Py.mul "/" 1 ++ Py.join "/" cs) with (String "/" (Py.join "/" cs)).
    rewrite normpath_absolute_eq, Hj. cbv zeta. cbn [andb].
    now rewrite split_join.
  - change (Py.mul "/" 2 ++ Py.join "/" cs)
      with (String "/" (String "/" (Py.join "/" cs))).
    rewrite normpath_absolute_eq, !startswith_cons, Hj.
    change (Ascii.eqb "/" "/") with true. rewrite startswith_nil.
    cbv zeta. cbn [andb negb].
    change (Py.split "/" (String "/" (Py.join "/" cs)))
      with (EmptyString :: Py.split "/" (Py.join "/" cs)).
    change (fold_left (posixpath.normpath_step 2)
              (EmptyString :: Py.split "/" (Py.join "/" cs)) [])
      with (fold_left (posixpath.normpath_step 2)
              (Py.split "/" (Py.join "/" cs)) []).
    now rewrite split_join.
Qed.

Lemma endswith_app (s t : string) :
  t <> "" -> Py.endswith (s ++ t) "/" = Py.endswith t "/".
Proof.
  intros Ht. induction s as [|c s IH]; [reflexivity|].
  cbn [append Py.endswith]. rewrite IH.
  replace (String.eqb (String c (s ++ t)) "/") with false; [reflexivity|].
  symmetry. apply String.eqb_neq. intros H. injection H as _ H.
  apply append_empty in H as [_ H]. contradiction.
Qed.

Lemma endswith_no_sep (x : string) :
  has_char "/" x = false -> Py.endswith x "/" = false.
Proof.
  induction x as [|c x IH]; [reflexivity|]. cbn [has_char Py.endswith].
  intros H. apply orb_false_iff in H as [Hc Hx]. rewrite (IH Hx).
  rewrite orb_false_r. apply String.eqb_neq. intros E.
  injection E as -> _. discriminate Hc.
Qed.

Lemma join_clean_no_trailing_sep (l : list string) :
  l <> [] -> Forall (fun c => clean c = true) l ->
  Py.join "/" l <> "" /\ Py.endswith (Py.join "/" l) "/" = false.
Proof.
  unfold Py.join. induction l as [|x l IH]; [congruence|]. intros _ H.
  inversion H as [|? ? Hx Hl]; subst.
  destruct l as [|y l].
  - cbn. split; [now apply clean_not_empty|].
    apply endswith_no_sep. now apply clean_no_sep.
  - destruct (IH ltac:(discriminate) Hl) as [Hne He].
    change (String.concat "/" (x :: y :: l))
      with (x ++ String "/" (String.concat "/" (y :: l))).
    split.
    + intros E. apply append_empty in E as [_ E]. discriminate E.
    + change (String "/" (String.concat "/" (y :: l)))
        with ("/" ++ String.concat "/" (y :: l)).
      rewrite <- append_assoc, endswith_app by exact Hne. exact He.
Qed.

(** joining one more component to a normal absolute path *)
Lemma join_abs_form (n : nat) (l : list string) (c : string) :
  n = 1 \/ n = 2 -> Forall (fun c => clean c = true) l ->
  has_char "/" c = false ->
  posixpath.join (abs_form n l) c = abs_form n (l ++ [c]).
Proof.
  intros Hn Hl Hc. unfold posixpath.join.
  rewrite (no_sep_not_absolute c Hc).
  destruct l as [|x l].
  - destruct Hn as [-> | ->]; reflexivity.
  - destruct (join_clean_no_trailing_sep (x :: l) ltac:(discriminate) Hl)
      as [Hne He].
    unfold abs_form. rewrite endswith_app, He by exact Hne.
    replace (String.eqb (Py.mul "/" n ++ Py.join "/" (x :: l)) "")
      with false.
    + cbn [orb]. rewrite join_app_last by discriminate.
      now rewrite !append_assoc.
    + symmetry. apply String.eqb_neq. intros E.
      apply append_empty in E as [_ E]. contradiction.
Qed.

Lemma normpath_join_abs_form (n : nat) (l : list string) (c : string) :
  n = 1 \/ n = 2 -> Forall (fun c => clean c = true) l ->
  has_char "/" c = false ->
  posixpath.normpath (posixpath.join (abs_form n l) c)
  = abs_form n (posixpath.normpath_step n l c).
Proof.
  intros Hn Hl Hc. rewrite join_abs_form by assumption.
  unfold abs_form at 1. rewrite normpath_abs_comps.
  - rewrite fold_left_app, (normpath_loop_keeps n l []) by exact Hl.
    reflexivity.
  - exact Hn.
  - now destruct l.
  - apply Forall_app. split; [|now repeat constructor].
    eapply Forall_impl; [|exact Hl]. intros a. apply clean_no_sep.
  - destruct l as [|x l].
    + cbn. now apply no_sep_not_absolute.
    + inversion Hl; subst. apply (join_head_not_absolute x (l ++ [c]));
        [now apply clean_not_empty | now apply clean_no_sep].
Qed.

Lemma resolve_component (self : ShellEmulator) (n : nat) (l : list string)
    (c : string) :
  n = 1 \/ n = 2 -> Forall (fun c => clean c = true) l ->
  current_dir self = abs_form n l ->
  has_char "/" c = false ->
  resolve_path self c = abs_form n (posixpath.normpath_step n l c).
Proof.
  intros Hn Hl Hd Hc. unfold resolve_path.
  rewrite (no_sep_not_absolute c Hc), Hd. cbn [negb].
  now apply normpath_join_abs_form.
Qed.

(** the current directory of a session is in normal form *)
Lemma reachable_current_dir_normal (host : string) (members : list member)
    (self : ShellEmulator) :
  reachable host members self ->
  exists n l, (n = 1 \/ n = 2) /\ Forall (fun c => clean c = true) l /\
              current_dir self = abs_form n l.
Proof.
  induction 1 as [|self line Hr IH].
  - exists 1, []. auto.
  - destruct (run_command_state self line)
      as [[log' ->] | (args & log' & _ & _ & ->)]; cbn [current_dir].
    + exact IH.
    + destruct args as [|a rest]; [exists 1, []; auto|].
      cbn [cd_target]. unfold resolve_path.
      apply normpath_absolute_form.
      apply resolve_path_argument_absolute.
      now apply (reachable_current_dir_absolute host members).
Qed.

End ResolveNames.

Section ResolveProperties.

Lemma normpath_step_dot (n : nat) (l : list string) :
  posixpath.normpath_step n l "." = l.
Proof. reflexivity. Qed.

Lemma normpath_step_dotdot (n : nat) (l : list string) :
  n = 1 \/ n = 2 -> Forall (fun c => clean c = true) l ->
  posixpath.normpath_step n l ".." = removelast l.
Proof.
  intros Hn Hl. unfold posixpath.normpath_step.
  rewrite (clean_last_not_dotdot l Hl).
  change (String.eqb ".." "" || String.eqb ".." ".") with false.
  change (String.eqb ".." "..") with true.
  replace (n =? 0)%nat with false by (now destruct Hn as [-> | ->]).
  cbn [negb andb orb]. now destruct l.
Qed.

Lemma split_abs_form (n : nat) (l : list string) :
  n = 1 \/ n = 2 -> Forall (fun c => clean c = true) l ->
  Forall (fun c => c = "" \/ clean c = true) (Py.split "/" (abs_form n l)).
Proof.
  intros Hn Hl.
  assert (H : Forall (fun c => c = "" \/ clean c = true)
                (Py.split "/" (Py.join "/" l))).
  { destruct l as [|x l].
    - repeat constructor.
    - rewrite split_join; [ | discriminate | ].
      + eapply Forall_impl; [|exact Hl]. cbn. auto.
      + eapply Forall_impl; [|exact Hl]. intros a. apply clean_no_sep. }
  destruct Hn as [-> | ->].
  - change (Py.split "/" (abs_form 1 l))
      with (EmptyString :: Py.split "/" (Py.join "/" l)).
    constructor; auto.
  - change (Py.split "/" (abs_form 2 l))
      with (EmptyString :: EmptyString :: Py.split "/" (Py.join "/" l)).
    repeat (constructor; auto).
Qed.

Lemma only_slashes_app (a b : string) :
  only_slashes (a ++ b) = only_slashes a && only_slashes b.
Proof.
  induction a as [|c a IH]; cbn; [reflexivity|].
  now rewrite IH, andb_assoc.
Qed.

Lemma only_slashes_mul (n : nat) : only_slashes (Py.mul "/" n) = true.
Proof. induction n as [|n IH]; [reflexivity | exact IH]. Qed.

Lemma startswith_app_slashes (x t : string) (k : nat) :
  only_slashes x = false ->
  Py.startswith (x ++ t) (Py.mul "/" k) = Py.startswith x (Py.mul "/" k).
Proof.
  revert k. induction x as [|c x IH]; intros k; cbn [only_slashes];
    [discriminate|].
  intros H. destruct k as [|k].
  - cbn [Py.mul]. now rewrite !startswith_nil.
  - change (Py.mul "/" (S k)) with (String "/" (Py.mul "/" k)).
    change (String c x ++ t) with (String c (x ++ t)).
    rewrite !startswith_cons.
    destruct (Ascii.eqb c "/"); [|reflexivity].
    cbn [andb] in *. now apply IH.
Qed.

Lemma split_trailing_sep (sep : ascii) (x : string) :
  Py.split sep (x ++ String sep "") = (Py.split sep x ++ [EmptyString])%list.
Proof.
  induction x as [|c x IH]; cbn [append Py.split].
  - now rewrite Ascii.eqb_refl.
  - rewrite IH. destruct (Ascii.eqb c sep); [reflexivity|].
    pose proof (split_not_nil sep x) as Hne.
    destruct (Py.split sep x); [congruence | reflexivity].
Qed.

Lemma normpath_trailing_sep (x : string) :
  absolute x = true -> only_slashes x = false ->
  posixpath.normpath (x ++ "/") = posixpath.normpath x.
Proof.
  unfold absolute. destruct x as [|a rest]; [discriminate|].
  rewrite startswith_char. intros Ha. apply Ascii.eqb_eq in Ha. subst a.
  cbn [only_slashes]. change (Ascii.eqb "/" "/") with true. cbn [andb].
  intros Hr.
  change (String "/" rest ++ "/") with (String "/" (rest ++ "/")).
  rewrite !normpath_absolute_eq. cbv zeta.
  pose proof (startswith_app_slashes rest "/" 1 Hr) as H1.
  pose proof (startswith_app_slashes rest "/" 2 Hr) as H2.
  change (Py.mul "/" 1) with "/" in H1. change (Py.mul "/" 2) with "//" in H2.
  rewrite H1, H2, split_trailing_sep, fold_left_app. reflexivity.
Qed.

(** X7: in every state of a session, [.] resolves to the current
    directory. *)
Theorem resolve_dot_is_current_dir (host : string) (members : list member)
    (self : ShellEmulator) :
  reachable host members self ->
  resolve_path self "." = current_dir self.
Proof.
  intros Hr.
  destruct (reachable_current_dir_normal host members self Hr)
    as (n & l & Hn & Hl & Hd).
  rewrite (resolve_component self n l "." Hn Hl Hd eq_refl).
  now rewrite normpath_step_dot.
Qed.

Lemma resolve_dot_is_current_dir_witness :
  resolve_path (snd (run_command "cd /home" sample)) "." = "/home".
Proof.
  exact (resolve_dot_is_current_dir "host" sample_members
           (snd (run_command "cd /home" sample))
           (reach_step "host" sample_members sample "cd /home"
              (reach_init "host" sample_members))).
Defined.

(** X8: in every state of a session the current directory is one or two
    separators followed by components joined by [/], and [..] resolves
    to the same path without its last component; at the root, which has
    no component, [..] resolves to the root. *)
Theorem resolve_dotdot_is_parent (host : string) (members : list member)
    (self : ShellEmulator) :
  reachable host members self ->
  exists n l,
    (n = 1 \/ n = 2) /\
    Forall (fun c => clean c = true) l /\
    current_dir self = Py.mul "/" n ++ Py.join "/" l /\
    resolve_path self ".." = Py.mul "/" n ++ Py.join "/" (removelast l).
Proof.
  intros Hr.
  destruct (reachable_current_dir_normal host members self Hr)
    as (n & l & Hn & Hl & Hd).
  exists n, l. repeat (split; [assumption|]).
  rewrite (resolve_component self n l ".." Hn Hl Hd eq_refl).
  now rewrite normpath_step_dotdot.
Qed.

Lemma resolve_dotdot_is_parent_witness :
  exists n l,
    (n = 1 \/ n = 2) /\
    Forall (fun c => clean c = true) l /\
    current_dir (snd (run_command "cd /home" sample))
    = Py.mul "/" n ++ Py.join "/" l /\
    resolve_path (snd (run_command "cd /home" sample)) ".."
    = Py.mul "/" n ++ Py.join "/" (removelast l).
Proof.
  exact (resolve_dotdot_is_parent "host" sample_members
           (snd (run_command "cd /home" sample))
           (reach_step "host" sample_members sample "cd /home"
              (reach_init "host" sample_members))).
Defined.

(** X9: in every state of a session, a plain name (not empty, neither
    [.] nor [..], without [/]) resolves to the current directory joined
    with the name: normalization changes nothing. *)
Theorem resolve_name_is_join (host : string) (members : list member)
    (self : ShellEmulator) (c : string) :
  reachable host members self ->
  clean c = true ->
  resolve_path self c = posixpath.join (current_dir self) c.
Proof.
  intros Hr Hc.
  destruct (reachable_current_dir_normal host members self Hr)
    as (n & l & Hn & Hl & Hd).
  pose proof (clean_no_sep c Hc) as Hs.
  rewrite (resolve_component self n l c Hn Hl Hd Hs).
  rewrite normpath_step_keeps by exact Hc.
  rewrite Hd. symmetry. now apply join_abs_form.
Qed.

Lemma resolve_name_is_join_witness :
  resolve_path (snd (run_command "cd /home" sample)) "file.txt"
  = "/home/file.txt".
Proof.
  exact (resolve_name_is_join "host" sample_members
           (snd (run_command "cd /home" sample)) "file.txt"
           (reach_step "host" sample_members sample "cd /home"
              (reach_init "host" sample_members)) eq_refl).
Defined.

(** X10: with an absolute current directory, every resolved path is
    absolute, none of its components is [.] or [..], and it ends with a
    separator only when it consists of separators. *)
Theorem resolve_path_canonical (self : ShellEmulator) (p : string) :
  absolute (current_dir self) = true ->
  absolute (resolve_path self p) = true
  /\ Forall (fun c => c <> "." /\ c <> "..")
            (Py.split "/" (resolve_path self p))
  /\ (Py.endswith (resolve_path self p) "/" = true ->
      only_slashes (resolve_path self p) = true).
Proof.
  intros Habs. split; [now apply resolve_path_absolute|].
  unfold resolve_path.
  destruct (normpath_absolute_form _
              (resolve_path_argument_absolute self Habs p))
    as (n & l & Hn & Hl & ->).
  split.
  - eapply Forall_impl; [|exact (split_abs_form n l Hn Hl)].
    intros c [-> | Hc]; [split; discriminate|].
    unfold clean in Hc. split; intros ->; cbn in Hc; discriminate Hc.
  - destruct l as [|x l].
    + intros _. unfold abs_form. rewrite only_slashes_app, only_slashes_mul.
      reflexivity.
    + destruct (join_clean_no_trailing_sep (x :: l) ltac:(discriminate) Hl)
        as [Hne He].
      unfold abs_form. rewrite endswith_app, He by exact Hne. discriminate.
Qed.

Lemma resolve_path_canonical_witness :
  absolute (resolve_path sample "a/./b/../c/") = true
  /\ Forall (fun c => c <> "." /\ c <> "..")
            (Py.split "/" (resolve_path sample "a/./b/../c/"))
  /\ (Py.endswith (resolve_path sample "a/./b/../c/") "/" = true ->
      only_slashes (resolve_path sample "a/./b/../c/") = true).
Proof.
  exact (resolve_path_canonical sample "a/./b/../c/" eq_refl).
Defined.

(** X11: with an absolute current directory, a separator after a path
    that does not consist of separators only is ignored: [p/] resolves
    as [p] does. *)
Theorem resolve_path_trailing_separator (self : ShellEmulator) (p : string) :
  absolute (current_dir self) = true ->
  only_slashes p = false ->
  resolve_path self (p ++ "/") = resolve_path self p.
Proof.
  intros Habs Hp. unfold resolve_path.
  assert (Hs : Py.startswith (p ++ "/") "/" = Py.startswith p "/").
  { exact (startswith_app_slashes p "/" 1 Hp). }
  rewrite Hs.
  pose proof (resolve_path_argument_absolute self Habs p) as Hx.
  destruct (Py.startswith p "/") eqn:E; cbn [negb] in *.
  - now apply normpath_trailing_sep.
  - assert (Hj : posixpath.join (current_dir self) (p ++ "/")
                 = posixpath.join (current_dir self) p ++ "/").
    { unfold posixpath.join. rewrite Hs, E.
      destruct (String.eqb (current_dir self) ""
                || Py.endswith (current_dir self) "/");
        now rewrite !append_assoc. }
    rewrite Hj. apply normpath_trailing_sep; [exact Hx|].
    unfold posixpath.join. rewrite E.
    destruct (String.eqb (current_dir self) ""
              || Py.endswith (current_dir self) "/");
      rewrite !only_slashes_app, Hp; now rewrite !andb_false_r.
Qed.

Lemma resolve_path_trailing_separator_witness :
  resolve_path sample ("home" ++ "/") = resolve_path sample "home".
Proof.
  exact (resolve_path_trailing_separator sample "home" eq_refl eq_refl).
Defined.

End ResolveProperties.

(** * What a session keeps *)

Section SessionProperties.

(** what a command line can do to the emulator *)
Lemma run_command_effect (self : ShellEmulator) (line : string) :
  snd (run_command line self) = self
  \/ (exists act det, snd (run_command line self) = add_log self act det)
  \/ (exists path, snd (run_command line self)
                   = add_log (with_current_dir self path) "cd" path)
  \/ (exists path, snd (run_command line self) = with_current_dir self path).
Proof.
  rewrite run_command_eq.
  destruct (tokens line) as [|verb args]; [now left|].
  destruct (String.eqb verb "ls").
  { rewrite command_ls_eq. cbv zeta.
    destruct (is_directory (fs self) (ls_target self args));
      [destruct (log_parses (log self))|];
      first [now left | right; left; do 2 eexists; reflexivity]. }
  destruct (String.eqb verb "cd").
  { rewrite command_cd_eq. cbv zeta.
    destruct (is_directory (fs self) (cd_target self args));
      [destruct (log_parses (log self))|].
    - right. right. left. eexists. reflexivity.
    - right. right. right. eexists. reflexivity.
    - now left. }
  destruct (String.eqb verb "exit").
  { rewrite command_exit_eq. destruct (log_parses (log self));
      first [now left | right; left; do 2 eexists; reflexivity]. }
  destruct (String.eqb verb "uname").
  { rewrite command_uname_eq. destruct (log_parses (log self));
      first [now left | right; left; do 2 eexists; reflexivity]. }
  destruct (String.eqb verb "chmod").
  { rewrite command_chmod_eq.
    destruct args as [|mode [|p [|x rest]]]; try (now left).
    cbv zeta. destruct (exists_entry (fs self) (resolve_path self p));
      [destruct (log_parses (log self))|];
      first [now left | right; left; do 2 eexists; reflexivity]. }
  destruct (String.eqb verb "du").
  { rewrite command_du_sum. cbv zeta.
    destruct (exists_entry (fs self) (du_target self args));
      [destruct (log_parses (log self))|];
      first [now left | right; left; do 2 eexists; reflexivity]. }
  now left.
Qed.

Lemma run_command_keeps (self : ShellEmulator) (line : string) :
  fs (snd (run_command line self)) = fs self
  /\ hostname (snd (run_command line self)) = hostname self
  /\ exists l, log (snd (run_command line self)) = (log self ++ l)%list
               /\ length l <= 1.
Proof.
  destruct (run_command_effect self line)
    as [-> | [(act & det & ->) | [(path & ->) | (path & ->)]]]; cbn;
    (split; [reflexivity|]); (split; [reflexivity|]).
  - exists []. split; [now rewrite app_nil_r | cbn; lia].
  - eexists. split; [reflexivity | cbn; lia].
  - eexists. split; [reflexivity | cbn; lia].
  - exists []. split; [now rewrite app_nil_r | cbn; lia].
Qed.

(** X12: over a whole session the table and the host name are never
    changed, and the log only grows: the log after the session is the
    log before it followed by at most one record per line entered. *)
Theorem session_keeps_table_and_log (lines : list string)
    (self : ShellEmulator) :
  fs (run_commands lines self) = fs self
  /\ hostname (run_commands lines self) = hostname self
  /\ exists l, log (run_commands lines self) = (log self ++ l)%list
               /\ length l <= length lines.
Proof.
  revert self. induction lines as [|line lines IH]; intros self.
  - cbn. split; [reflexivity|]. split; [reflexivity|].
    exists []. split; [now rewrite app_nil_r | reflexivity].
  - destruct (run_command_keeps self line) as (Hfs & Hh & l1 & Hl1 & Hn1).
    assert (Hgo : fs (run_commands lines (snd (run_command line self)))
                  = fs self
                  /\ hostname (run_commands lines (snd (run_command line self)))
                     = hostname self
                  /\ exists l,
                       log (run_commands lines (snd (run_command line self)))
                       = (log self ++ l)%list
                       /\ length l <= length (line :: lines)).
    { destruct (IH (snd (run_command line self)))
        as (Hfs' & Hh' & l2 & Hl2 & Hn2).
      split; [congruence|]. split; [congruence|].
      exists (l1 ++ l2)%list. split.
      - now rewrite Hl2, Hl1, app_assoc.
      - rewrite length_app. cbn [length]. lia. }
    assert (Hstop : fs (snd (run_command line self)) = fs self
                    /\ hostname (snd (run_command line self)) = hostname self
                    /\ exists l,
                         log (snd (run_command line self))
                         = (log self ++ l)%list
                         /\ length l <= length (line :: lines)).
    { split; [exact Hfs|]. split; [exact Hh|].
      exists l1. split; [exact Hl1 | cbn [length]; lia]. }
    cbn [run_commands].
    destruct (run_command line self) as [[out | e] self']; cbn [snd] in *;
      [exact Hgo|].
    destruct e; first [exact Hgo | exact Hstop].
Qed.

(** X13: a command that does not reach its success branch changes
    nothing and says why: for an unknown verb and for a failed
    validation the emulator is left as it was, log included, and the
    output is a message that is not empty. *)
Theorem failure_changes_nothing (self : ShellEmulator) (line verb : string)
    (args : list string) :
  tokens line = verb :: args ->
  succeeds self verb args = false ->
  exists out, run_command line self = (Return out, self) /\ out <> "".
Proof.
  intros Ht. rewrite run_command_eq, Ht. unfold succeeds.
  destruct (String.eqb verb "ls").
  { rewrite command_ls_eq. cbv zeta. intros ->.
    eexists. split; [reflexivity | discriminate]. }
  destruct (String.eqb verb "cd").
  { rewrite command_cd_eq. cbv zeta. intros ->.
    eexists. split; [reflexivity | discriminate]. }
  destruct (String.eqb verb "exit"); [discriminate|].
  destruct (String.eqb verb "uname"); [discriminate|].
  destruct (String.eqb verb "chmod").
  { rewrite command_chmod_eq.
    destruct args as [|mode [|p [|x rest]]];
      try (intros _; eexists; split; [reflexivity | discriminate]).
    cbv zeta. intros ->. eexists. split; [reflexivity | discriminate]. }
  destruct (String.eqb verb "du").
  { rewrite command_du_sum. cbv zeta. intros ->.
    eexists. split; [reflexivity | discriminate]. }
  intros _. eexists. split; [reflexivity|].
  intros E. apply append_empty in E as [_ E]. discriminate E.
Qed.

Lemma failure_changes_nothing_witness :
  exists out,
    run_command "ls /home/file.txt" sample = (Return out, sample)
    /\ out <> "".
Proof.
  exact (failure_changes_nothing sample "ls /home/file.txt" "ls"
           ["/home/file.txt"] eq_refl eq_refl).
Defined.

Lemma xml_legal_text (t : string) :
  xml_legal t = true -> xml_legal (xml_text t) = true.
Proof.
  induction t as [|c t IH]; [reflexivity|]. cbn [xml_legal xml_text].
  intros H. apply andb_true_iff in H as [Hc Ht].
  destruct (nat_of_ascii c =? 13)%nat.
  - destruct t as [|c' t']; [reflexivity|].
    destruct (nat_of_ascii c' =? 10)%nat; [now apply IH|].
    cbn [xml_legal]. now rewrite (IH Ht).
  - cbn [xml_legal]. now rewrite Hc, (IH Ht).
Qed.

Lemma add_log_parses (self : ShellEmulator) (act det : string) :
  log_parses (log self) = true ->
  xml_legal act = true -> xml_legal det = true ->
  log_parses (log (add_log self act det)) = true.
Proof.
  intros Hlog Ha Hd. unfold log_parses. cbn [log add_log].
  rewrite forallb_app. fold (log_parses (log self)). rewrite Hlog.
  cbn. now rewrite (xml_legal_text act Ha), (xml_legal_text det Hd).
Qed.

(** X14: while the log file parses, after a [cd] that succeeds into a
    directory whose path holds no character that XML forbids, [ls]
    without argument lists the directory that [cd] went to. *)
Theorem cd_then_ls (self : ShellEmulator) (line : string)
    (args : list string) :
  absolute (current_dir self) = true ->
  log_parses (log self) = true ->
  tokens line = "cd" :: args ->
  is_directory (fs self) (cd_target self args) = true ->
  xml_legal (cd_target self args) = true ->
  let path := cd_target self args in
  let self' := snd (run_command line self) in
  current_dir self' = path
  /\ run_command "ls" self'
     = (Return (Py.join Py.nl (ls_contents (fs self) path)),
        add_log self' "ls" path).
Proof.
  intros Habs Hlog Ht Hd Hx path self'.
  assert (Hs : self' = add_log (with_current_dir self path) "cd" path).
  { subst self'. rewrite (run_command_cd self line args Ht), command_cd_eq.
    cbv zeta. fold path. subst path. now rewrite Hd, Hlog. }
  assert (Hlog' : log_parses (log self') = true).
  { rewrite Hs. now apply add_log_parses. }
  assert (Hp : exists n l, (n = 1 \/ n = 2)
                 /\ Forall (fun c => clean c = true) l
                 /\ path = abs_form n l).
  { subst path. destruct args as [|a rest]; [exists 1, []; auto|].
    cbn [cd_target]. unfold resolve_path. apply normpath_absolute_form.
    now apply resolve_path_argument_absolute. }
  destruct Hp as (n & l & Hn & Hl & Hp).
  split; [now rewrite Hs|].
  rewrite (run_command_ls self' "ls" []) by reflexivity.
  rewrite command_ls_eq. cbv zeta. unfold ls_target. cbn [hd].
  assert (Hc : current_dir self' = abs_form n l) by (now rewrite Hs).
  rewrite (resolve_component self' n l "." Hn Hl Hc eq_refl).
  rewrite normpath_step_dot, <- Hp, Hlog'.
  replace (fs self') with (fs self) by now rewrite Hs.
  subst path. rewrite Hd. unfold listChildren, ls_contents.
  now rewrite <- (filter_keys
    (fun name => Py.startswith name (cd_target self args)
                 && negb (String.eqb name (cd_target self args)))).
Qed.

Lemma cd_then_ls_witness :
  current_dir (snd (run_command "cd /home" sample)) = "/home"
  /\ run_command "ls" (snd (run_command "cd /home" sample))
     = (Return (Py.join Py.nl (ls_contents (fs sample) "/home")),
        add_log (snd (run_command "cd /home" sample)) "ls" "/home").
Proof.
  exact (cd_then_ls sample "cd /home" ["/home"]
           eq_refl eq_refl eq_refl eq_refl eq_refl).
Defined.

End SessionProperties.

(** * Sizes reported by du *)

Section DuProperties.












End DuProperties.

(** * The window *)

Section Window.

Lemma endswith_suffix (a b : string) : Py.endswith (a ++ b) b = true.
Proof.
  induction a as [|c a IH].
  - destruct b; cbn; [reflexivity|].
    now rewrite Ascii.eqb_refl, String.eqb_refl.
  - cbn [append Py.endswith]. rewrite IH. apply orb_true_r.
Qed.

Lemma display_prompt_eq (g : Gui) :
  display_prompt g
  = {| emulator := emulator g; text := text g ++ prompt (emulator g);
       text_state := DISABLED; entry_text := entry_text g |}.
Proof. reflexivity. Qed.

(** X17: between two events the window is in order, also after a line
    whose command raised an exception other than [SystemExit]: the text
    widget is disabled, the entry is empty and the host name and the
    table are those the window started with.  The text ends with the
    prompt made of the host name and the current directory of the
    emulator after [start_gui] and after every line whose command
    returns. *)
Theorem window_shows_prompt (self0 : ShellEmulator) (g : Gui) :
  gui_reachable self0 g ->
  text_state g = DISABLED
  /\ entry_text g = ""
  /\ hostname (emulator g) = hostname self0
  /\ fs (emulator g) = fs self0
  /\ Py.endswith (text (start_gui self0))
       (hostname self0 ++ ":" ++ current_dir self0 ++ "$ ") = true
  /\ forall line g',
       on_enter (entry_type line g) = (Return tt, g') ->
       Py.endswith (text g')
         (hostname self0 ++ ":" ++ current_dir (emulator g') ++ "$ ") = true.
Proof.
  intros Hg.
  assert (Hinv : text_state g = DISABLED /\ entry_text g = ""
                 /\ hostname (emulator g) = hostname self0
                 /\ fs (emulator g) = fs self0).
  { induction Hg as [|g line g' Hg (Hst & Hen & Hh & Hfs) Hstep
                      |g line e g' Hg (Hst & Hen & Hh & Hfs) Hstep Hne].
    - cbn. auto.
    - unfold on_enter in Hstep. cbn [entry_type entry_text emulator text
        text_state text_config text_insert entry_delete] in Hstep.
      destruct (run_command_keeps (emulator g) line) as (Kfs & Kh & _).
      destruct (run_command line (emulator g)) as [[out | e] self'];
        [|discriminate Hstep].
      cbn [snd] in Kfs, Kh. injection Hstep as <-.
      destruct (negb (String.eqb out ""));
        cbn [display_prompt text_config text_insert text_state emulator
             text entry_text];
        (split; [reflexivity|]); (split; [reflexivity|]); split; congruence.
    - unfold on_enter in Hstep. cbn [entry_type entry_text emulator text
        text_state text_config text_insert entry_delete] in Hstep.
      destruct (run_command_keeps (emulator g) line) as (Kfs & Kh & _).
      destruct (run_command line (emulator g)) as [[out | e'] self'];
        [discriminate Hstep|].
      cbn [snd] in Kfs, Kh. injection Hstep as _ <-.
      cbn [text_state entry_text emulator].
      (split; [reflexivity|]); (split; [reflexivity|]); split; congruence. }
  destruct Hinv as (Hst & Hen & Hh & Hfs).
  repeat (split; [assumption|]).
  split; [apply (endswith_suffix "")|].
  intros line g' Hstep.
  unfold on_enter in Hstep. cbn [entry_type entry_text emulator text
    text_state text_config text_insert entry_delete] in Hstep.
  destruct (run_command_keeps (emulator g) line) as (_ & Kh & _).
  destruct (run_command line (emulator g)) as [[out | e] self'];
    [|discriminate Hstep].
  cbn [snd] in Kh. injection Hstep as <-.
  destruct (negb (String.eqb out ""));
    cbn [display_prompt text_config text_insert text_state emulator text
         entry_text prompt];
    unfold prompt; rewrite Kh, Hh; apply endswith_suffix.
Qed.

Lemma window_shows_prompt_witness :
  exists g g',
    on_enter (entry_type "uname" (start_gui corrupted)) = (Raise ParseError, g)
    /\ text_state g = DISABLED
    /\ entry_text g = ""
    /\ on_enter (entry_type "cd /nope" g) = (Return tt, g')
    /\ Py.endswith (text g') "host:/$ " = true.
Proof.
  do 2 eexists. split; [reflexivity|].
  destruct (window_shows_prompt corrupted _
              (gui_enter_error corrupted (start_gui corrupted) "uname"
                 ParseError _ (gui_start corrupted) eq_refl
                 (fun code H => match H with end)))
    as (H1 & H2 & _ & _ & _ & H3).
  split; [exact H1|]. split; [exact H2|]. split; [reflexivity|].
  exact (H3 "cd /nope" _ eq_refl).
Defined.

End Window.

(** * Archives with relative names *)

Section RelativeNames.

Lemma load_fs_no_absolute_key (members : list member) (k : string) :
  Forall (fun m => absolute (name m) = false) members ->
  absolute k = true ->
  dict_lookup (load_fs members) k = None.
Proof.
  intros Hrel Hk. unfold load_fs. rewrite load_fs_fold, load_fs_lookup_from.
  destruct (find (fun m => String.eqb (name m) k) (rev members)) as [m|] eqn:E;
    [|reflexivity].
  apply find_some in E as [Hin Hm]. apply String.eqb_eq in Hm.
  apply in_rev in Hin. rewrite Forall_forall in Hrel.
  specialize (Hrel m Hin). congruence.
Qed.

Lemma nothing_found_step (self : ShellEmulator) (line : string) :
  (forall k, absolute k = true -> dict_lookup (fs self) k = None) ->
  absolute (current_dir self) = true ->
  snd (run_command line self) = self
  \/ snd (run_command line self) = add_log self "exit" ""
  \/ snd (run_command line self) = add_log self "uname" "".
Proof.
  intros Hno Habs.
  assert (Hdir : forall k, absolute k = true -> is_directory (fs self) k = false)
    by (intros k Hk; unfold is_directory; now rewrite (Hno k Hk)).
  assert (Hex : forall k, absolute k = true -> exists_entry (fs self) k = false)
    by (intros k Hk; unfold exists_entry; now rewrite (Hno k Hk)).
  rewrite run_command_eq.
  destruct (tokens line) as [|verb args]; [now left|].
  destruct (String.eqb verb "ls").
  { rewrite command_ls_eq. cbv zeta. unfold ls_target.
    rewrite Hdir by now apply resolve_path_absolute. now left. }
  destruct (String.eqb verb "cd").
  { rewrite command_cd_eq. cbv zeta.
    rewrite Hdir; [now left|].
    destruct args; [reflexivity | now apply resolve_path_absolute]. }
  destruct (String.eqb verb "exit").
  { rewrite command_exit_eq.
    destruct (log_parses (log self)); [right; now left | now left]. }
  destruct (String.eqb verb "uname").
  { rewrite command_uname_eq.
    destruct (log_parses (log self)); [right; now right | now left]. }
  destruct (String.eqb verb "chmod").
  { rewrite command_chmod_eq.
    destruct args as [|mode [|p [|x rest]]]; try (now left).
    cbv zeta. rewrite Hex by now apply resolve_path_absolute. now left. }
  destruct (String.eqb verb "du").
  { rewrite command_du_sum. cbv zeta.
    rewrite Hex; [now left|].
    destruct args; [exact Habs | now apply resolve_path_absolute]. }
  now left.
Qed.

(** X18: when no name of the archive starts with [/], nothing is ever
    found: the current directory stays [/], and every command line
    leaves the emulator as it is or only logs [exit] or [uname]; [ls],
    [cd], [chmod] and [du] never reach their success branch. *)
Theorem relative_archive_finds_nothing (host : string)
    (members : list member) (self : ShellEmulator) (line : string) :
  Forall (fun m => absolute (name m) = false) members ->
  reachable host members self ->
  current_dir self = "/"
  /\ (snd (run_command line self) = self
      \/ snd (run_command line self) = add_log self "exit" ""
      \/ snd (run_command line self) = add_log self "uname" "").
Proof.
  intros Hrel Hr.
  assert (Hno : forall k, absolute k = true -> dict_lookup (fs self) k = None).
  { intros k Hk. destruct (reachable_inv host members self Hr) as (-> & _).
    now apply load_fs_no_absolute_key. }
  split.
  - clear Hno. induction Hr as [|self l Hr IH]; [reflexivity|].
    assert (Hno : forall k, absolute k = true ->
                            dict_lookup (fs self) k = None).
    { intros k Hk. destruct (reachable_inv host members self Hr) as (-> & _).
      now apply load_fs_no_absolute_key. }
    destruct (nothing_found_step self l Hno
                (reachable_current_dir_absolute host members self Hr))
      as [-> | [-> | ->]]; exact IH.
  - apply nothing_found_step; [exact Hno|].
    now apply (reachable_current_dir_absolute host members).
Qed.

Lemma relative_archive_finds_nothing_witness :
  let members := [ {| name := "home"; isdir := true; msize := 0 |};
                   {| name := "home/file.txt"; isdir := false;
                      msize := 42 |} ] in
  current_dir (init "host" members) = "/"
  /\ (snd (run_command "ls home" (init "host" members)) = init "host" members
      \/ snd (run_command "ls home" (init "host" members))
         = add_log (init "host" members) "exit" ""
      \/ snd (run_command "ls home" (init "host" members))
         = add_log (init "host" members) "uname" "").
Proof.
  intros members.
  apply (relative_archive_finds_nothing "host" members
           (init "host" members) "ls home").
  - repeat constructor.
  - apply reach_init.
Defined.

End RelativeNames.

(** * Lines without forbidden characters *)

Section LegalLines.

Lemma xml_legal_app (a b : string) :
  xml_legal (a ++ b) = xml_legal a && xml_legal b.
Proof.
  induction a as [|c a IH]; cbn; [reflexivity|].
  now rewrite IH, andb_assoc.
Qed.

Lemma split_ws_legal (s word : string) :
  xml_legal word = true -> xml_legal s = true ->
  Forall (fun t => xml_legal t = true) (Py.split_ws_from word s).
Proof.
  revert word. induction s as [|c s IH]; intros word Hw Hs; cbn.
  - destruct (String.eqb word ""); repeat constructor. exact Hw.
  - cbn in Hs. apply andb_true_iff in Hs as [Hc Hs].
    destruct (Py.isspace c).
    + destruct (String.eqb word "");
        [|constructor; [exact Hw|]]; now apply IH.
    + apply IH; [|exact Hs]. rewrite xml_legal_app. cbn.
      now rewrite Hw, Hc.
Qed.

Lemma tokens_legal (line : string) :
  xml_legal line = true ->
  Forall (fun t => xml_legal t = true) (tokens line).
Proof.
  intros H. rewrite tokens_split_ws. now apply split_ws_legal.
Qed.

Lemma split_legal (sep : ascii) (s : string) :
  xml_legal s = true ->
  Forall (fun t => xml_legal t = true) (Py.split sep s).
Proof.
  induction s as [|c s IH]; cbn [Py.split xml_legal].
  - repeat constructor.
  - intros H. apply andb_true_iff in H as [Hc Hs].
    specialize (IH Hs). destruct (Ascii.eqb c sep).
    + now constructor.
    + destruct (Py.split sep s) as [|w ws].
      * repeat constructor. cbn. now rewrite Hc.
      * inversion IH; subst. constructor; [|assumption].
        cbn. now rewrite Hc.
Qed.

Lemma normpath_step_legal (n : nat) (acc : list string) (comp : string) :
  Forall (fun t => xml_legal t = true) acc -> xml_legal comp = true ->
  Forall (fun t => xml_legal t = true) (posixpath.normpath_step n acc comp).
Proof.
  intros Hacc Hc. unfold posixpath.normpath_step.
  destruct (String.eqb comp "" || String.eqb comp "."); [exact Hacc|].
  destruct (negb (String.eqb comp "..")
            || (n =? 0)%nat && negb (Py.truthy acc)
            || Py.truthy acc && String.eqb (last acc "") "..").
  - apply Forall_app. split; [exact Hacc | now repeat constructor].
  - destruct (Py.truthy acc); [now apply Forall_removelast | exact Hacc].
Qed.

Lemma normpath_loop_legal (n : nat) (comps acc : list string) :
  Forall (fun t => xml_legal t = true) comps ->
  Forall (fun t => xml_legal t = true) acc ->
  Forall (fun t => xml_legal t = true)
         (fold_left (posixpath.normpath_step n) comps acc).
Proof.
  intros Hc. revert acc.
  induction Hc as [|c comps Hc _ IH]; intros acc Hacc; cbn; [exact Hacc|].
  apply IH. now apply normpath_step_legal.
Qed.

Lemma join_legal (l : list string) :
  Forall (fun t => xml_legal t = true) l ->
  xml_legal (Py.join "/" l) = true.
Proof.
  unfold Py.join. induction 1 as [|x l Hx Hl IH]; [reflexivity|].
  destruct l as [|y l]; [exact Hx|].
  change (String.concat "/" (x :: y :: l))
    with (x ++ "/" ++ String.concat "/" (y :: l)).
  rewrite !xml_legal_app, Hx, IH. reflexivity.
Qed.

Lemma mul_legal (n : nat) : xml_legal (Py.mul "/" n) = true.
Proof. induction n as [|n IH]; [reflexivity | exact IH]. Qed.

Lemma normpath_legal (path : string) :
  xml_legal path = true -> xml_legal (posixpath.normpath path) = true.
Proof.
  intros H. unfold posixpath.normpath.
  destruct (String.eqb path ""); [reflexivity|]. cbv zeta.
  set (n := if Py.startswith path "/"
            then (if Py.startswith path "//"
                     && negb (Py.startswith path "///") then 2 else 1)
            else 0).
  assert (Hj : xml_legal
                 (Py.join "/" (fold_left (posixpath.normpath_step n)
                                 (Py.split "/" path) [])) = true).
  { apply join_legal. apply normpath_loop_legal;
      [now apply split_legal | constructor]. }
  assert (Hp : xml_legal
                 (if (n =? 0)%nat
                  then Py.join "/" (fold_left (posixpath.normpath_step n)
                                      (Py.split "/" path) [])
                  else Py.mul "/" n
                       ++ Py.join "/" (fold_left (posixpath.normpath_step n)
                                         (Py.split "/" path) [])) = true).
  { destruct (n =? 0)%nat; [exact Hj|].
    now rewrite xml_legal_app, mul_legal, Hj. }
  now destruct (String.eqb _ "").
Qed.

Lemma resolve_path_legal (self : ShellEmulator) (path : string) :
  xml_legal (current_dir self) = true -> xml_legal path = true ->
  xml_legal (resolve_path self path) = true.
Proof.
  intros Hd Hp. unfold resolve_path. apply normpath_legal.
  destruct (negb (Py.startswith path "/")); [|exact Hp].
  unfold posixpath.join. destruct (Py.startswith path "/"); [exact Hp|].
  destruct (String.eqb (current_dir self) ""
            || Py.endswith (current_dir self) "/");
    rewrite !xml_legal_app, Hd, Hp; reflexivity.
Qed.

Lemma legal_line_step (self : ShellEmulator) (line : string) :
  log_parses (log self) = true ->
  xml_legal (current_dir self) = true ->
  xml_legal line = true ->
  fst (run_command line self) <> Raise ParseError
  /\ log_parses (log (snd (run_command line self))) = true
  /\ xml_legal (current_dir (snd (run_command line self))) = true.
Proof.
  intros Hlog Hd Hline. pose proof (tokens_legal line Hline) as Ht.
  rewrite run_command_eq.
  destruct (tokens line) as [|verb args];
    [cbn; repeat split; [discriminate | assumption | assumption]|].
  inversion Ht as [|? ? Hverb Hargs]; subst.
  assert (Harg : forall d, xml_legal d = true -> xml_legal (hd d args) = true)
    by (intros d Hdd; destruct Hargs; assumption).
  destruct (String.eqb verb "ls").
  { rewrite command_ls_eq. cbv zeta. rewrite Hlog.
    destruct (is_directory (fs self) (ls_target self args)); cbn [fst snd];
      repeat split; try discriminate; try assumption.
    apply add_log_parses; [assumption | reflexivity|].
    apply resolve_path_legal; [assumption | now apply Harg]. }
  assert (Hcd : xml_legal (cd_target self args) = true).
  { destruct Hargs; [reflexivity | now apply resolve_path_legal]. }
  assert (Hdu : xml_legal (du_target self args) = true).
  { destruct Hargs; [exact Hd | now apply resolve_path_legal]. }
  destruct (String.eqb verb "cd").
  { rewrite command_cd_eq. cbv zeta. rewrite Hlog.
    destruct (is_directory (fs self) (cd_target self args)); cbn [fst snd];
      repeat split; try discriminate; try assumption.
    now apply (add_log_parses (with_current_dir self (cd_target self args))). }
  destruct (String.eqb verb "exit").
  { rewrite command_exit_eq, Hlog. cbn [fst snd].
    repeat split; try discriminate; try assumption.
    now apply add_log_parses. }
  destruct (String.eqb verb "uname").
  { rewrite command_uname_eq, Hlog. cbn [fst snd].
    repeat split; try discriminate; try assumption.
    now apply add_log_parses. }
  destruct (String.eqb verb "chmod").
  { rewrite command_chmod_eq.
    destruct args as [|mode [|p [|x rest]]]; cbn [fst snd];
      try (repeat split; [discriminate | assumption | assumption]).
    cbv zeta. rewrite Hlog.
    inversion Hargs as [|? ? Hm Hrest]; subst.
    inversion Hrest as [|? ? Hp _]; subst.
    destruct (exists_entry (fs self) (resolve_path self p)); cbn [fst snd];
      repeat split; try discriminate; try assumption.
    apply add_log_parses; [assumption | reflexivity|].
    rewrite !xml_legal_app, Hm. cbn.
    now apply resolve_path_legal. }
  destruct (String.eqb verb "du").
  { rewrite command_du_sum. cbv zeta. rewrite Hlog.
    destruct (exists_entry (fs self) (du_target self args)); cbn [fst snd];
      repeat split; try discriminate; try assumption.
    now apply add_log_parses. }
  cbn. repeat split; [discriminate | assumption | assumption].
Qed.

Lemma legal_lines_from (lines : list string) (self : ShellEmulator) :
  log_parses (log self) = true ->
  xml_legal (current_dir self) = true ->
  Forall (fun l => xml_legal l = true) lines ->
  log_parses (log (run_commands lines self)) = true
  /\ xml_legal (current_dir (run_commands lines self)) = true.
Proof.
  intros Hlog Hd Hl. revert self Hlog Hd.
  induction Hl as [|line lines Hline _ IH]; intros self Hlog Hd; [now cbn|].
  destruct (legal_line_step self line Hlog Hd Hline) as (_ & Hlog' & Hd').
  cbn [run_commands].
  destruct (run_command line self) as [[out | e] self']; cbn [snd] in *;
    [now apply IH|].
  destruct e; first [now apply IH | now split].
Qed.

(** X24: in a session where no line entered holds a character that XML
    forbids (a control character other than TAB, LF and CR), the log
    file stays well-formed, and no such line ever raises [ParseError]. *)
Theorem legal_lines_keep_log (host : string) (members : list member)
    (lines : list string) (line : string) :
  Forall (fun l => xml_legal l = true) lines ->
  xml_legal line = true ->
  log_parses (log (run_commands lines (init host members))) = true
  /\ fst (run_command line (run_commands lines (init host members)))
     <> Raise ParseError.
Proof.
  intros Hl Hline.
  destruct (legal_lines_from lines (init host members) eq_refl eq_refl Hl)
    as [Hlog Hd].
  split; [exact Hlog|].
  now destruct (legal_line_step _ line Hlog Hd Hline) as (H & _).
Qed.

Lemma legal_lines_keep_log_witness :
  log_parses (log (run_commands ["cd /home"; "chmod 755 file.txt"]
                     (init "host" sample_members))) = true
  /\ fst (run_command "uname"
            (run_commands ["cd /home"; "chmod 755 file.txt"]
               (init "host" sample_members)))
     <> Raise ParseError.
Proof.
  apply (legal_lines_keep_log "host" sample_members
           ["cd /home"; "chmod 755 file.txt"] "uname").
  - repeat constructor.
  - reflexivity.
Defined.

End LegalLines.
